(** * check-domain: the enrichment pipeline of [index.js]

    A shallow embedding of the module exported by [index.js] and of the
    helpers it is made of ([getIp], [lookup], [getPing], [getMajesticData],
    [getWhoisData], [getSemrushData], [getIndexedPages], [getOtherMetrics],
    [getTld], [convertSemrush], [emptySemrush], [emptyWhoisData]).

    - JavaScript values are an inductive type [value]; objects are
      association lists in insertion order.
    - Code that can raise an exception returns a [completion].
    - Callback-passing code is a tree of effects [prog]: every call into
      [dns], [ping], [request] or [serp] is a node whose continuation is the
      callback of the source.  [run] plays such a tree against a [world]
      that answers the calls and records them.
    - [async.waterfall] and [async.parallel] are combinators on [prog].

    The calls to the logger and to [console.log] do not touch the data that
    flows through the pipeline and are left out. *)

From Stdlib Require Import String Ascii List ZArith Bool Lia DecimalString.
Import ListNotations.

Local Open Scope string_scope.
Local Open Scope list_scope.
Local Set Warnings "-register-all".

(** ** JavaScript values *)

(** Numbers.  The numbers this program computes with are result counts,
    trust scores and ages in days: integers.  [NaN] is the only other
    number the code stores; fractions and the infinities are left out of
    the model.  The one quotient the code computes is rendered as text at
    once ([yearsToFixed2]). *)
Inductive number : Type :=
| Num (z : Z)
| NaN.

(** An array carries its elements and, like every JavaScript object, the
    named properties assigned to it. *)
Inductive value : Type :=
| VUndef
| VNull
| VBool (b : bool)
| VNum (n : number)
| VStr (s : string)
| VArr (elems : list value) (props : list (string * value))
| VObj (props : list (string * value)).

Inductive exn : Type :=
| TypeError
| SyntaxError.

(** The result of evaluating code that may throw. *)
Inductive completion (A : Type) : Type :=
| Normal (a : A)
| Abrupt (x : exn).

Arguments Normal {A} a.
Arguments Abrupt {A} x.

Definition cbind {A B : Type} (c : completion A) (f : A -> completion B)
  : completion B :=
  match c with
  | Normal a => f a
  | Abrupt x => Abrupt x
  end.

Declare Scope completion_scope.
Delimit Scope completion_scope with completion.
Notation "'let*' x ':=' c 'in' k" := (cbind c (fun x => k))
  (at level 10, x name, c at level 100, k at level 200) : completion_scope.

(** [if (v)]: the values that count as false are [undefined], [null],
    [false], [0], [NaN] and the empty string. *)
Definition truthy (v : value) : bool :=
  match v with
  | VUndef | VNull => false
  | VBool b => b
  | VNum (Num z) => negb (Z.eqb z 0)
  | VNum NaN => false
  | VStr s => negb (String.eqb s "")
  | VArr _ _ | VObj _ => true
  end.

(** Own property of an object, [undefined] when there is none. *)
Fixpoint own (props : list (string * value)) (name : string) : value :=
  match props with
  | [] => VUndef
  | (k, v) :: rest => if String.eqb k name then v else own rest name
  end.

(** [v.name].  Reading a property of [undefined] or [null] throws; a
    primitive has none of the properties this program asks for. *)
Definition get (v : value) (name : string) : completion value :=
  match v with
  | VUndef | VNull => Abrupt TypeError
  | VObj ps | VArr _ ps => Normal (own ps name)
  | VBool _ | VNum _ | VStr _ => Normal VUndef
  end.

Fixpoint put (props : list (string * value)) (name : string) (v : value)
  : list (string * value) :=
  match props with
  | [] => [(name, v)]
  | (k, w) :: rest =>
      if String.eqb k name then (k, v) :: rest else (k, w) :: put rest name v
  end.

(** [o.name = v], returning the object after the assignment.  The module is
    not in strict mode: an assignment to a property of a primitive is
    dropped without an error. *)
Definition set (o : value) (name : string) (v : value) : completion value :=
  match o with
  | VUndef | VNull => Abrupt TypeError
  | VObj ps => Normal (VObj (put ps name v))
  | VArr es ps => Normal (VArr es (put ps name v))
  | VBool _ | VNum _ | VStr _ => Normal o
  end.

(** [v[0]]. *)
Definition first (v : value) : completion value :=
  match v with
  | VUndef | VNull => Abrupt TypeError
  | VArr es _ => Normal (nth 0 es VUndef)
  | VObj ps => Normal (own ps "0")
  | VStr (String c _) => Normal (VStr (String c ""))
  | VStr EmptyString | VBool _ | VNum _ => Normal VUndef
  end.

(** [v === s] for a string literal [s]. *)
Definition is_string (v : value) (s : string) : bool :=
  match v with
  | VStr t => String.eqb t s
  | _ => false
  end.

(** Does [needle] occur in [s]? *)
Fixpoint contains (needle s : string) : bool :=
  prefix needle s
  || match s with
     | EmptyString => false
     | String _ rest => contains needle rest
     end.

(** [v.indexOf(needle) > -1].  Strings and arrays have an [indexOf]; on any
    other value the call throws. *)
Definition indexOf_found (v : value) (needle : string) : completion bool :=
  match v with
  | VStr s => Normal (contains needle s)
  | VArr es _ => Normal (existsb (fun e => is_string e needle) es)
  | VUndef | VNull | VBool _ | VNum _ | VObj _ => Abrupt TypeError
  end.

(** [s.split(sep)] for a separator that is not empty.  [skip] counts the
    characters of a separator just found that are still to be passed over;
    [cur] is the piece being read. *)
Fixpoint split_from (sep : string) (skip : nat) (cur s : string)
  : list string :=
  match s with
  | EmptyString => [cur]
  | String c rest =>
      match skip with
      | S k => split_from sep k cur rest
      | O =>
          if prefix sep s
          then cur :: split_from sep (String.length sep - 1) "" rest
          else split_from sep 0 (cur ++ String c "") rest
      end
  end.

Definition split (sep s : string) : list string := split_from sep 0 "" s.

(** [a[i]] for an array of strings. *)
Definition item (a : list string) (i : nat) : value :=
  match nth_error a i with
  | Some s => VStr s
  | None => VUndef
  end.

(** Comparison of strings by code unit, as [<] does when both operands
    are strings. *)
Fixpoint string_lt (a b : string) : bool :=
  match a, b with
  | _, EmptyString => false
  | EmptyString, String _ _ => true
  | String x a', String y b' =>
      let m := nat_of_ascii x in
      let n := nat_of_ascii y in
      if Nat.ltb m n then true
      else if Nat.ltb n m then false
      else string_lt a' b'
  end.

(** ** What the JavaScript runtime and the libraries compute

    Functions of the runtime and of [moment] and [urijs] that the program
    calls and whose results it only stores or compares. *)
Record builtins : Type := {
  (** [JSON.parse(body)]; throws a [SyntaxError] on a malformed text *)
  JSON_parse : string -> completion value;
  (** the number a string converts to *)
  StringToNumber : string -> number;
  (** the primitive an array or object converts to in arithmetic *)
  ToPrimitive : value -> value;
  (** [moment(v, moment.ISO_8601).fromNow()]: the text depends on the
      clock *)
  fromNow : value -> string;
  (** [new URI("http://" + domain).tld()]; the constructor throws a
      [TypeError] on a host or a port it refuses *)
  URI_tld : string -> completion value
}.

(** The double nearest to an integer, ties to the even significand of 53
    bits.  Integers of magnitude up to 2^53 are doubles. *)
Definition to_double (z : Z) : Z :=
  let m := Z.abs z in
  if (m <? 2 ^ 53)%Z then z
  else
    let e := (Z.log2 m - 52)%Z in
    let q := Z.shiftr m e in
    let r := (m - Z.shiftl q e)%Z in
    let half := Z.shiftl 1 (e - 1) in
    let q' :=
      if (half <? r)%Z || ((r =? half)%Z && Z.odd q) then (q + 1)%Z else q in
    (Z.sgn z * Z.shiftl q' e)%Z.

(** The decimal digits of a natural number. *)
Definition decimal (n : Z) : string :=
  NilZero.string_of_uint (N.to_uint (Z.to_N n)).

(** The number of hundredths nearest to [z / d], for [0 <= z] and [0 < d]. *)
Definition hundredths (z d : Z) : Z := ((200 * z + d) / (2 * d))%Z.

(** [(z / d).toFixed(2)] for integers [z] and [0 < d]: the sign, the
    digits of the integer part, a point and two decimals, of the number of
    hundredths nearest to the quotient.  The code divides by 365, and a
    quotient by 365 is never half-way between two hundredths.  The runtime
    rounds the quotient to a double first, which leaves the two decimals as
    they are for every [z] of magnitude below 2^47. *)
Definition quotient_toFixed2 (z d : Z) : string :=
  let n := hundredths (Z.abs z) d in
  (if (z <? 0)%Z then "-" else "")
  ++ decimal (n / 100) ++ "."
  ++ decimal (n mod 100 / 10) ++ decimal (n mod 10).

Section Conversions.

Variable B : builtins.

Definition primitive (v : value) : value :=
  match v with
  | VArr _ _ | VObj _ => ToPrimitive B v
  | _ => v
  end.

(** The number a value converts to.  [ToPrimitive] answers with a
    primitive on every object [JSON.parse] builds, so the last case is
    never reached on them. *)
Definition ToNumber (v : value) : number :=
  match primitive v with
  | VUndef => NaN
  | VNull => Num 0
  | VBool b => Num (if b then 1 else 0)
  | VNum n => n
  | VStr s => StringToNumber B s
  | VArr _ _ | VObj _ => NaN
  end.

(** [a < b]: two strings are compared as strings, anything else as
    numbers, and a comparison with [NaN] is false. *)
Definition less (a b : value) : bool :=
  match primitive a, primitive b with
  | VStr s, VStr t => string_lt s t
  | pa, pb =>
      match ToNumber pa, ToNumber pb with
      | Num x, Num y => Z.ltb x y
      | _, _ => false
      end
  end.

(** [a - b]: the difference of two doubles is the double nearest to the
    exact difference. *)
Definition subtract (a b : value) : number :=
  match ToNumber a, ToNumber b with
  | Num x, Num y => Num (to_double (x - y))
  | _, _ => NaN
  end.

(** [(v / 365).toFixed(2)]; [NaN] is rendered as ["NaN"]. *)
Definition yearsToFixed2 (v : value) : string :=
  match ToNumber v with
  | Num z => quotient_toFixed2 z 365
  | NaN => "NaN"
  end.

End Conversions.

(** [v && v.n1 && v.n1.n2 ...]: the value of the chain of guards. *)
Fixpoint chain (v : value) (names : list string) : completion value :=
  match names with
  | [] => Normal v
  | n :: rest =>
      if truthy v then cbind (get v n) (fun w => chain w rest) else Normal v
  end.

(** ** The outside world and the effects of the program *)

(** [request(query, callback)]: the callback receives a transport error,
    or a response with its status code and body. *)
Inductive response : Type :=
| NetError (e : string)
| Reply (statusCode : Z) (body : string).

(** [serp.search(opts, callback)]. *)
Inductive search_result : Type :=
| SearchError (e : string)
| Count (v : value).

Record query : Type := {
  url : string;
  qs : list (string * value)
}.

Record search_opts : Type := {
  so_host : value;
  so_numberOfResults : bool;
  so_q : string;
  so_proxyList : value
}.

(** An error handed to a callback: one received from a transport, or one
    made by the program with [new Error(msg)]. *)
Inductive error : Type :=
| Transport (e : string)
| NewError (msg : string).

(** A computation in callback-passing style.  [Ret a] is [callback(null, a)],
    [Fail e] is [callback(e)], and [Throw x] is an exception that leaves the
    code without any callback being called.  The other nodes are the calls
    to the outside; their continuation is the callback given to the call. *)
Inductive prog (A : Type) : Type :=
| Ret (a : A)
| Fail (e : error)
| Throw (x : exn)
| Lookup (hostname : string) (k : option string -> prog A)
| Probe (addr : value) (k : bool -> prog A)
| Request (q : query) (k : response -> prog A)
| Search (o : search_opts) (k : search_result -> prog A).

Arguments Ret {A} a.
Arguments Fail {A} e.
Arguments Throw {A} x.
Arguments Lookup {A} hostname k.
Arguments Probe {A} addr k.
Arguments Request {A} q k.
Arguments Search {A} o k.

Fixpoint bind {A B : Type} (p : prog A) (f : A -> prog B) : prog B :=
  match p with
  | Ret a => f a
  | Fail e => Fail e
  | Throw x => Throw x
  | Lookup h k => Lookup h (fun r => bind (k r) f)
  | Probe a k => Probe a (fun r => bind (k r) f)
  | Request q k => Request q (fun r => bind (k r) f)
  | Search o k => Search o (fun r => bind (k r) f)
  end.

Declare Scope prog_scope.
Delimit Scope prog_scope with prog.
Notation "x <- p ;; k" := (bind p (fun x => k))
  (at level 61, p at next level, right associativity) : prog_scope.

(** A piece of code that may throw, run inside a callback. *)
Definition eval {A : Type} (c : completion A) : prog A :=
  match c with
  | Normal a => Ret a
  | Abrupt x => Throw x
  end.

(** What the caller of a computation observes. *)
Inductive outcome (A : Type) : Type :=
| Ok (a : A)
| Err (e : error)
| Uncaught (x : exn).

Arguments Ok {A} a.
Arguments Err {A} e.
Arguments Uncaught {A} x.

Inductive event : Type :=
| EvLookup (hostname : string)
| EvProbe (addr : value)
| EvRequest (q : query)
| EvSearch (o : search_opts).

(** The answers of the outside world. [dns] is [None] when the lookup
    fails. *)
Record world : Type := {
  dns : string -> option string;
  ping : value -> bool;
  http : query -> response;
  serp : search_opts -> search_result
}.

(** Plays a computation against a world: the calls made, in order, and the
    outcome. *)
Fixpoint run {A : Type} (w : world) (p : prog A) : list event * outcome A :=
  match p with
  | Ret a => ([], Ok a)
  | Fail e => ([], Err e)
  | Throw x => ([], Uncaught x)
  | Lookup h k =>
      let (t, o) := run w (k (dns w h)) in (EvLookup h :: t, o)
  | Probe a k =>
      let (t, o) := run w (k (ping w a)) in (EvProbe a :: t, o)
  | Request q k =>
      let (t, o) := run w (k (http w q)) in (EvRequest q :: t, o)
  | Search s k =>
      let (t, o) := run w (k (serp w s)) in (EvSearch s :: t, o)
  end.

(** ** [async.waterfall] and [async.parallel] *)

(** [async.waterfall]: each step receives the result of the one before; the
    first error ends the chain. *)
Fixpoint waterfall {A : Type} (start : prog A) (steps : list (A -> prog A))
  : prog A :=
  match steps with
  | [] => start
  | f :: rest => waterfall (bind start f) rest
  end.

(** Runs a task to its end and hands back how it ended. *)
Fixpoint attempt {A : Type} (p : prog A) : prog (outcome A) :=
  match p with
  | Ret a => Ret (Ok a)
  | Fail e => Ret (Err e)
  | Throw x => Ret (Uncaught x)
  | Lookup h k => Lookup h (fun r => attempt (k r))
  | Probe a k => Probe a (fun r => attempt (k r))
  | Request q k => Request q (fun r => attempt (k r))
  | Search o k => Search o (fun r => attempt (k r))
  end.

(** The tasks of a parallel group are started one after the other, so
    their calls go out in the order of the tasks.  A task that throws
    before making any call stops the loop: the tasks after it are not
    started. *)
Fixpoint start_all {A : Type} (tasks : list (prog A))
  : prog (list (outcome A)) :=
  match tasks with
  | [] => Ret []
  | Throw x :: _ => Ret [Uncaught x]
  | t :: rest =>
      bind (attempt t) (fun o =>
      bind (start_all rest) (fun os => Ret (o :: os)))
  end.

(** The first task, in the order the tasks complete, that did not succeed. *)
Fixpoint first_failure {A : Type} (order : list nat) (os : list (outcome A))
  : option (error + exn) :=
  match order with
  | [] => None
  | i :: rest =>
      match nth_error os i with
      | Some (Err e) => Some (inl e)
      | Some (Uncaught x) => Some (inr x)
      | Some (Ok _) | None => first_failure rest os
      end
  end.

Definition values {A : Type} (os : list (outcome A)) : list A :=
  flat_map (fun o => match o with Ok a => [a] | _ => [] end) os.

(** The tasks complete in an order the program does not control:
    [order] lists task indices as they complete, and the tasks it does not
    list complete after those, in the order of their indices.  The first
    failure is the one reported; when there is none the results are handed
    over in the order of the tasks. *)
Definition settle {A : Type} (order : list nat) (os : list (outcome A))
  : outcome (list A) :=
  match first_failure (order ++ seq 0 (List.length os)) os with
  | Some (inl e) => Err e
  | Some (inr x) => Uncaught x
  | None => Ok (values os)
  end.

Definition parallel {A : Type} (order : list nat) (tasks : list (prog A))
  : prog (list A) :=
  bind (start_all tasks) (fun os =>
    match settle order os with
    | Ok vs => Ret vs
    | Err e => Fail e
    | Uncaught x => Throw x
    end).

(** ** The data of the program *)

(** The [options] object the caller passes in.  Every field but the domain
    is optional and tested for truth by the code, so it is kept as a
    value. *)
Module Options.
Record t : Type := {
  domain : string;
  majecticKey : value;
  whois : value;
  semrushKey : value;
  semrushDB : value;
  noCheckIfDNSResolve : value;
  minTrustFlow : value;
  host : value;
  proxyList : value
}.
End Options.

(** The object made by [lookup] and filled in stage after stage
    ([dnsInfo], [generalInfo], [data] in the source).  A field that was
    never assigned is [None]. *)
Module Info.
Record t : Type := mk {
  domain : string;
  withWWW : bool;
  isDNSFound : bool;
  ip : option string;
  isAlive : option bool;
  majestic : option value;
  whois : option value;
  isAvailable : option bool;
  semrush : option value;
  primaryIndex : option value;
  googleIndex : option value;
  secondaryIndex : option value;
  tld : option value
}.

Definition set_isAlive (d : t) (b : bool) : t :=
  mk (domain d) (withWWW d) (isDNSFound d) (ip d) (Some b) (majestic d)
     (whois d) (isAvailable d) (semrush d) (primaryIndex d) (googleIndex d)
     (secondaryIndex d) (tld d).

Definition set_majestic (d : t) (v : value) : t :=
  mk (domain d) (withWWW d) (isDNSFound d) (ip d) (isAlive d) (Some v)
     (whois d) (isAvailable d) (semrush d) (primaryIndex d) (googleIndex d)
     (secondaryIndex d) (tld d).

Definition set_whois (d : t) (v : value) : t :=
  mk (domain d) (withWWW d) (isDNSFound d) (ip d) (isAlive d) (majestic d)
     (Some v) (isAvailable d) (semrush d) (primaryIndex d) (googleIndex d)
     (secondaryIndex d) (tld d).

Definition set_isAvailable (d : t) (b : bool) : t :=
  mk (domain d) (withWWW d) (isDNSFound d) (ip d) (isAlive d) (majestic d)
     (whois d) (Some b) (semrush d) (primaryIndex d) (googleIndex d)
     (secondaryIndex d) (tld d).

Definition set_semrush (d : t) (v : value) : t :=
  mk (domain d) (withWWW d) (isDNSFound d) (ip d) (isAlive d) (majestic d)
     (whois d) (isAvailable d) (Some v) (primaryIndex d) (googleIndex d)
     (secondaryIndex d) (tld d).

Definition set_primaryIndex (d : t) (v : value) : t :=
  mk (domain d) (withWWW d) (isDNSFound d) (ip d) (isAlive d) (majestic d)
     (whois d) (isAvailable d) (semrush d) (Some v) (googleIndex d)
     (secondaryIndex d) (tld d).

Definition set_googleIndex (d : t) (v : value) : t :=
  mk (domain d) (withWWW d) (isDNSFound d) (ip d) (isAlive d) (majestic d)
     (whois d) (isAvailable d) (semrush d) (primaryIndex d) (Some v)
     (secondaryIndex d) (tld d).

Definition set_secondaryIndex (d : t) (v : value) : t :=
  mk (domain d) (withWWW d) (isDNSFound d) (ip d) (isAlive d) (majestic d)
     (whois d) (isAvailable d) (semrush d) (primaryIndex d) (googleIndex d)
     (Some v) (tld d).

Definition set_tld (d : t) (v : value) : t :=
  mk (domain d) (withWWW d) (isDNSFound d) (ip d) (isAlive d) (majestic d)
     (whois d) (isAvailable d) (semrush d) (primaryIndex d) (googleIndex d)
     (secondaryIndex d) (Some v).

(** Reading a field: [undefined] when it was never assigned. *)
Definition read (f : option value) : value :=
  match f with
  | Some v => v
  | None => VUndef
  end.

Definition read_ip (d : t) : value :=
  match ip d with
  | Some a => VStr a
  | None => VUndef
  end.
End Info.

(** ** The program *)

Definition URL_WHOIS : string :=
  "https://www.whoisxmlapi.com/whoisserver/WhoisService".
Definition URL_MAJESTIC_GET_INFO : string := "http://api.majestic.com/api/json".
Definition URL_SEMRUSH_GET_DATA : string := "http://api.semrush.com/".

Definition REDEMPTION_PERIOD : string := "redemptionPeriod".
Definition PENDING_DELETE : string := "pendingDelete".
Definition INVALID_DOMAIN_MESSAGE : string :=
  "Unable to retrieve whois record for".
Definition MISSING_WHOIS_DATA_MESSAGE : string := "MISSING_WHOIS_DATA".

Definition CRLF : string := String (ascii_of_nat 13) (String (ascii_of_nat 10) "").

Definition lookup (domain : string) (withWWW : bool) : prog Info.t :=
  Lookup (if withWWW then "www." ++ domain else domain)
    (fun r =>
       match r with
       | None =>
           Ret (Info.mk domain withWWW false None None None None None None
                  None None None None)
       | Some address =>
           Ret (Info.mk domain withWWW true (Some address) None None None
                  None None None None None None)
       end).

Definition getIp (options : Options.t) : prog Info.t :=
  waterfall
    (lookup (Options.domain options) false)
    [fun data =>
       if Info.isDNSFound data then Ret data
       else lookup (Options.domain options) true].

Definition getPing (dnsInfo : Info.t) : prog Info.t :=
  if negb (Info.isDNSFound dnsInfo)
  then Ret (Info.set_isAlive dnsInfo false)
  else Probe (Info.read_ip dnsInfo)
         (fun isAlive => Ret (Info.set_isAlive dnsInfo isAlive)).

Definition emptyWhoisData : value :=
  VObj [ ("missingData", VStr "true");
         ("isValidDomain", VStr "no-data");
         ("isPendingDelete", VStr "no-data");
         ("isRedemptionPeriod", VStr "no-data");
         ("createdDate", VStr "no-data");
         ("expiresDate", VStr "no-data");
         ("expiredWaitingTime", VStr "no-data");
         ("estimatedDomainAge", VStr "no-data") ].

Definition emptySemrush : value :=
  VObj [ ("rank", VNum (Num (-1)));
         ("oganicKeywords", VNum (Num 0));
         ("organicTraffic", VNum (Num 0));
         ("organicCost", VNum (Num 0));
         ("adwordsKeywords", VNum (Num 0));
         ("adwordsTraffic", VNum (Num 0));
         ("adwordsCost", VNum (Num 0)) ].

Definition convertSemrush (semrushResponse : string) : value :=
  let result := split CRLF semrushResponse in
  if Nat.ltb (List.length result) 2 then emptySemrush
  else
    let response := split ";" (nth 1 result "") in
    VObj [ ("rank", item response 1);
           ("oganicKeywords", item response 2);
           ("organicTraffic", item response 3);
           ("organicCost", item response 4);
           ("adwordsKeywords", item response 5);
           ("adwordsTraffic", item response 6);
           ("adwordsCost", item response 7) ].

Section Pipeline.

Variable B : builtins.

Local Open Scope completion_scope.

Definition NO_MAJESTIC_KEY : value :=
  VObj [("TrustFlow", VNum (Num 0)); ("ResultCode", VStr "NO-MAJESTIC-KEY")].

Definition NO_CHECK_DNS_RESOLVED : value :=
  VObj [("TrustFlow", VNum (Num 0));
        ("ResultCode", VStr "N0-CHECK-DNS-RESOLVED")].

Definition majestic_query (options : Options.t) : query :=
  {| url := URL_MAJESTIC_GET_INFO;
     qs := [ ("cmd", VStr "GetIndexItemInfo");
             ("datasource", VStr "fresh");
             ("app_api_key", Options.majecticKey options);
             ("items", VNum (Num 1));
             ("item0", VStr (Options.domain options)) ] |}.

Definition getMajesticData (generalInfo : Info.t) (options : Options.t)
  : prog Info.t :=
  if truthy (Options.majecticKey options) then
    if truthy (Options.noCheckIfDNSResolve options)
       && Info.isDNSFound generalInfo
    then Ret (Info.set_majestic generalInfo NO_CHECK_DNS_RESOLVED)
    else
      Request (majestic_query options)
        (fun r =>
           match r with
           | NetError e => Fail (Transport e)
           | Reply statusCode body =>
               if Z.eqb statusCode 200 then
                 eval (let* info := JSON_parse B body in
                       let* tables := get info "DataTables" in
                       let* results := get tables "Results" in
                       let* data := get results "Data" in
                       let* row := first data in
                       Normal (Info.set_majestic generalInfo row))
               else
                 Fail (NewError
                   "Impossible to get the Majestic data, check your credential")
           end)
  else Ret (Info.set_majestic generalInfo NO_MAJESTIC_KEY).

(** [options.minTrustFlow && generalInfo.majestic.TrustFlow <
    options.minTrustFlow], as a condition. *)
Definition below_minTrustFlow (generalInfo : Info.t) (options : Options.t)
  : completion bool :=
  if truthy (Options.minTrustFlow options) then
    let* score := get (Info.read (Info.majestic generalInfo)) "TrustFlow" in
    Normal (less B score (Options.minTrustFlow options))
  else Normal false.

Definition whois_query (options : Options.t) : completion query :=
  let* user := get (Options.whois options) "user" in
  let* password := get (Options.whois options) "password" in
  Normal {| url := URL_WHOIS;
            qs := [ ("username", user);
                    ("password", password);
                    ("domainName", VStr (Options.domain options));
                    ("outputFormat", VStr "JSON");
                    ("getMode", VStr "DNS_AND_WHOIS") ] |}.

(** The body of the callback of the whois request for a response with
    status 200. *)
Definition whois_200 (body : string) : completion value :=
  let* info := JSON_parse B body in
  (* Check if the domains is valid *)
  let* message := get info "ErrorMessage" in
  let* invalid :=
    (if truthy message
     then let* msg := get message "msg" in
          indexOf_found msg INVALID_DOMAIN_MESSAGE
     else Normal false) in
  let* info := set info "isValidDomain" (VBool (negb invalid)) in
  (* Check if there a whois data for this domain *)
  let* record := get info "WhoisRecord" in
  let* dataError := chain record ["dataError"] in
  let* info :=
    set info "missingData"
      (VBool (truthy dataError
              && is_string dataError MISSING_WHOIS_DATA_MESSAGE)) in
  (* Check is the domain is pending deleted *)
  let* record := get info "WhoisRecord" in
  let* status := chain record ["registryData"; "status"] in
  let* info :=
    (if truthy status
     then let* info := set info "status" status in
          let* pending := indexOf_found status PENDING_DELETE in
          let* info := set info "isPendingDelete" (VBool pending) in
          let* redemption := indexOf_found status REDEMPTION_PERIOD in
          set info "isRedemptionPeriod" (VBool redemption)
     else let* info := set info "isPendingDelete" (VStr "no-data") in
          set info "isRedemptionPeriod" (VStr "no-data")) in
  (* Check created date *)
  let* record := get info "WhoisRecord" in
  let* created := chain record ["createdDate"] in
  let* info :=
    set info "createdDate"
      (if truthy created then created else VStr "no-data") in
  (* Check expires date *)
  let* record := get info "WhoisRecord" in
  let* expires := chain record ["expiresDate"] in
  let* info :=
    (if truthy expires
     then let* info := set info "expiresDate" expires in
          set info "expiredWaitingTime" (VStr (fromNow B expires))
     else let* info := set info "expiresDate" (VStr "no-data") in
          set info "expiredWaitingTime" (VStr "no-data")) in
  (* Check domain age *)
  let* record := get info "WhoisRecord" in
  let* age := chain record ["estimatedDomainAge"] in
  set info "estimatedDomainAge"
    (if truthy age then VStr (yearsToFixed2 B age) else VStr "no-data").

(** [options.whois && options.whois.user && options.whois.password], as a
    condition. *)
Definition has_whois_credential (options : Options.t) : completion bool :=
  let* user := chain (Options.whois options) ["user"] in
  let* password :=
    (if truthy user then get (Options.whois options) "password"
     else Normal user) in
  Normal (truthy password).

(** The callback [getWhoisData] gives to [request]. *)
Definition whois_callback (r : response) : prog value :=
  match r with
  | NetError _ => Ret emptyWhoisData
  | Reply statusCode body =>
      if Z.eqb statusCode 200 then eval (whois_200 body)
      else Ret emptyWhoisData
  end.

Definition getWhoisData (generalInfo : Info.t) (options : Options.t)
  : prog value :=
  if truthy (Options.noCheckIfDNSResolve options)
     && Info.isDNSFound generalInfo
  then Ret emptyWhoisData
  else
    bind (eval (below_minTrustFlow generalInfo options)) (fun below =>
    if below : bool then Ret emptyWhoisData
    else
      bind (eval (has_whois_credential options)) (fun credential =>
      if credential : bool then
        bind (eval (whois_query options)) (fun query =>
        Request query whois_callback)
      else Ret emptyWhoisData)).

Definition semrush_query (options : Options.t) : query :=
  {| url := URL_SEMRUSH_GET_DATA;
     qs := [ ("type", VStr "domain_rank");
             ("key", Options.semrushKey options);
             ("export_columns", VStr "Dn,Rk,Or,Ot,Oc,Ad,At,Ac");
             ("domain", VStr (Options.domain options));
             ("database",
              if truthy (Options.semrushDB options)
              then Options.semrushDB options else VStr "us") ] |}.

Definition getSemrushData (generalInfo : Info.t) (options : Options.t)
  : prog value :=
  if truthy (Options.semrushKey options) then
    if truthy (Options.noCheckIfDNSResolve options)
       && Info.isDNSFound generalInfo
    then Ret emptySemrush
    else
      bind (eval (below_minTrustFlow generalInfo options)) (fun below =>
      if below : bool then Ret emptySemrush
      else
        Request (semrush_query options)
          (fun r =>
             match r with
             | NetError e => Fail (Transport e)
             | Reply statusCode body =>
                 if Z.eqb statusCode 200 then Ret (convertSemrush body)
                 else
                   Fail (NewError
                     "Impossible to get the semrush data, check your credential")
             end))
  else Ret emptySemrush.

Definition getIndexedPages (options : Options.t) (fromPrimaryIndex : bool)
  : prog value :=
  Search
    {| so_host := Options.host options;
       so_numberOfResults := true;
       so_q := "site:" ++ Options.domain options
               ++ (if fromPrimaryIndex then " /&" else "");
       so_proxyList := Options.proxyList options |}
    (fun r =>
       match r with
       | SearchError e => Fail (Transport e)
       | Count v => Ret v
       end).

(** [getTld(domain)]. *)
Definition getTld (domain : string) : completion value :=
  URI_tld B domain.

(** The callback of [async.parallel] in [getOtherMetrics], on success:
    the four results are merged into [generalInfo]. *)
Definition merge (generalInfo : Info.t) (options : Options.t)
    (results : list value) : completion Info.t :=
  let result i := nth i results VUndef in
  let data := generalInfo in
  let data :=
    if truthy (result 0%nat) then Info.set_whois data (result 0%nat)
    else data in
  let* data :=
    (if truthy (result 0%nat) then
       if Info.isDNSFound data then
         Normal (Info.set_isAvailable data false)
       else
         let* status := chain (Info.read (Info.whois data)) ["status"] in
         if truthy status
         then Normal (Info.set_isAvailable data (is_string status "AVAILABLE"))
         else Normal (Info.set_isAvailable data false)
     else Normal data) in
  let data :=
    if truthy (result 1%nat) then Info.set_semrush data (result 1%nat)
    else data in
  let data :=
    if truthy (result 2%nat) then Info.set_primaryIndex data (result 2%nat)
    else data in
  let data :=
    if truthy (result 3%nat) then
      let data := Info.set_googleIndex data (result 3%nat) in
      Info.set_secondaryIndex data
        (VNum (subtract B (Info.read (Info.googleIndex data))
                          (Info.read (Info.primaryIndex data))))
    else data in
  let* tld := getTld (Options.domain options) in
  Normal (Info.set_tld data tld).

(** The four tasks [getOtherMetrics] runs in parallel. *)
Definition group (generalInfo : Info.t) (options : Options.t)
  : list (prog value) :=
  [ getWhoisData generalInfo options;
    getSemrushData generalInfo options;
    getIndexedPages options true;
    getIndexedPages options false ].

Definition getOtherMetrics (order : list nat) (generalInfo : Info.t)
    (options : Options.t) : prog Info.t :=
  bind (parallel order (group generalInfo options))
       (fun results => eval (merge generalInfo options results)).

(** [module.exports]: the check of one domain.  [order] is the order in
    which the four fetches of the last stage complete. *)
Definition check (order : list nat) (options : Options.t) : prog Info.t :=
  waterfall
    (getIp options)
    [ fun data => getPing data;
      fun data => getMajesticData data options;
      fun data => getOtherMetrics order data options ].

End Pipeline.

(** The first three steps of the waterfall of [module.exports]: everything
    that runs before the parallel group. *)
Definition authority_stage (B : builtins) (options : Options.t)
  : prog Info.t :=
  waterfall
    (getIp options)
    [ fun data => getPing data;
      fun data => getMajesticData B data options ].

(** Does the resolver find the domain, bare or with the [www.] prefix? *)
Definition resolves (w : world) (domain : string) : bool :=
  match dns w domain with
  | Some _ => true
  | None =>
      match dns w ("www." ++ domain) with
      | Some _ => true
      | None => false
      end
  end.

(** "A non-200 HTTP status or transport failure". *)
Definition failed (r : response) : bool :=
  match r with
  | NetError _ => true
  | Reply statusCode _ => negb (Z.eqb statusCode 200)
  end.

(** What each task of a group has come to once all of them were started. *)
Fixpoint started {A : Type} (w : world) (tasks : list (prog A))
  : list (outcome A) :=
  match tasks with
  | [] => []
  | Throw x :: _ => [Uncaught x]
  | t :: rest => snd (run w t) :: started w rest
  end.

(** The fields the stages before the merge never write. *)
Definition unmerged (d : Info.t) : Prop :=
  Info.whois d = None /\ Info.isAvailable d = None
  /\ Info.primaryIndex d = None /\ Info.googleIndex d = None
  /\ Info.secondaryIndex d = None.

(** The calls of each kind in a trace. *)
Definition requests (t : list event) : list query :=
  flat_map (fun e => match e with EvRequest q => [q] | _ => [] end) t.

Definition searches (t : list event) : list search_opts :=
  flat_map (fun e => match e with EvSearch o => [o] | _ => [] end) t.

Definition probes (t : list event) : list value :=
  flat_map (fun e => match e with EvProbe a => [a] | _ => [] end) t.

(** The calls made while the tasks of a group are started. *)
Fixpoint started_trace {A : Type} (w : world) (tasks : list (prog A))
  : list event :=
  match tasks with
  | [] => []
  | Throw x :: _ => []
  | t :: rest => fst (run w t) ++ started_trace w rest
  end.

(** The address the resolver finds for the domain, bare name first. *)
Definition resolved_address (w : world) (domain : string) : option string :=
  match dns w domain with
  | Some a => Some a
  | None => dns w ("www." ++ domain)
  end.

(** The query of the search of the primary or of the full index. *)
Definition search_query (options : Options.t) (fromPrimaryIndex : bool)
  : search_opts :=
  {| so_host := Options.host options;
     so_numberOfResults := true;
     so_q := "site:" ++ Options.domain options
             ++ (if fromPrimaryIndex then " /&" else "");
     so_proxyList := Options.proxyList options |}.

(** The names of the fields of a Semrush record, in order. *)
Definition SEMRUSH_FIELDS : list string :=
  [ "rank"; "oganicKeywords"; "organicTraffic"; "organicCost";
    "adwordsKeywords"; "adwordsTraffic"; "adwordsCost" ].

(** The names of the fields [getWhoisData] adds to a whois answer. *)
Definition WHOIS_DERIVED : list string :=
  [ "isValidDomain"; "missingData"; "status"; "isPendingDelete";
    "isRedemptionPeriod"; "createdDate"; "expiresDate";
    "expiredWaitingTime"; "estimatedDomainAge" ].

(** The properties of a whois answer after [getWhoisData] has added its
    fields, from the values the callback reads in the answer. *)
Definition normalized (B : builtins) (ps : list (string * value))
    (invalid : bool) (dataError status : value) (pending redemption : bool)
    (created expires age : value) : list (string * value) :=
  let ps := put ps "isValidDomain" (VBool (negb invalid)) in
  let ps :=
    put ps "missingData"
      (VBool (truthy dataError
              && is_string dataError MISSING_WHOIS_DATA_MESSAGE)) in
  let ps :=
    if truthy status
    then put (put (put ps "status" status)
                "isPendingDelete" (VBool pending))
           "isRedemptionPeriod" (VBool redemption)
    else put (put ps "isPendingDelete" (VStr "no-data"))
           "isRedemptionPeriod" (VStr "no-data") in
  let ps :=
    put ps "createdDate" (if truthy created then created else VStr "no-data")
  in
  let ps :=
    if truthy expires
    then put (put ps "expiresDate" expires)
           "expiredWaitingTime" (VStr (fromNow B expires))
    else put (put ps "expiresDate" (VStr "no-data"))
           "expiredWaitingTime" (VStr "no-data") in
  put ps "estimatedDomainAge"
    (if truthy age then VStr (yearsToFixed2 B age) else VStr "no-data").

(** ** Scenarios

    Concrete runtimes, requests and worlds on which the properties below
    are exercised. *)

Definition quote : string := String (ascii_of_nat 34) "".

Definition quoted (s : string) : string := quote ++ s ++ quote.

(** A [JSON.parse] that knows the texts of a table and rejects every
    other text. *)
Definition parse_table (table : list (string * value)) (body : string)
  : completion value :=
  match find (fun entry => String.eqb (fst entry) body) table with
  | Some entry => Normal (snd entry)
  | None => Abrupt SyntaxError
  end.

(** [{"DataTables":{"Results":{"Data":[]}}}] *)
Definition MAJESTIC_NO_ROW : string :=
  "{" ++ quoted "DataTables" ++ ":{" ++ quoted "Results" ++ ":{"
      ++ quoted "Data" ++ ":[]}}}".

(** [{"WhoisRecord":{"registryData":{"status":"AVAILABLE"}}}] *)
Definition WHOIS_AVAILABLE : string :=
  "{" ++ quoted "WhoisRecord" ++ ":{" ++ quoted "registryData" ++ ":{"
      ++ quoted "status" ++ ":" ++ quoted "AVAILABLE" ++ "}}}".

(** A runtime for the scenarios.  It parses the three JSON texts they
    use, and its [URI] finds the suffix [com].  No scenario converts a
    string or an object to a number or renders a date; those entries are
    placeholders. *)
Definition sample_runtime : builtins :=
  {| JSON_parse :=
       parse_table
         [ ("false", VBool false);
           (MAJESTIC_NO_ROW,
            VObj [("DataTables",
                   VObj [("Results", VObj [("Data", VArr [] [])])])]);
           (WHOIS_AVAILABLE,
            VObj [("WhoisRecord",
                   VObj [("registryData",
                          VObj [("status", VStr "AVAILABLE")])])]) ];
     StringToNumber := fun _ => NaN;
     ToPrimitive := fun _ => VStr "[object Object]";
     fromNow := fun _ => "a year ago";
     URI_tld := fun _ => Normal (VStr "com") |}.

(** A request for the domain of the end-to-end scenario of the
    documentation. *)
Definition request_for (majecticKey whois semrushKey noCheckIfDNSResolve
    minTrustFlow : value) : Options.t :=
  {| Options.domain := "example-test123.com";
     Options.majecticKey := majecticKey;
     Options.whois := whois;
     Options.semrushKey := semrushKey;
     Options.semrushDB := VUndef;
     Options.noCheckIfDNSResolve := noCheckIfDNSResolve;
     Options.minTrustFlow := minTrustFlow;
     Options.host := VUndef;
     Options.proxyList := VUndef |}.

Definition no_credentials : Options.t :=
  request_for VUndef VUndef VUndef VUndef VUndef.

Definition whois_credential : value :=
  VObj [("user", VStr "user"); ("password", VStr "secret")].

(** A world in which every name resolves or none does, every host answers
    the probe, every HTTP request gets the same answer, and the two
    searches report the given counts. *)
Definition world_of (resolved : bool) (answer : response)
    (primary google : value) : world :=
  {| dns := fun _ => if resolved then Some "93.184.216.34" else None;
     ping := fun _ => true;
     http := fun _ => answer;
     serp := fun o =>
       if String.eqb (so_q o) "site:example-test123.com /&"
       then Count primary else Count google |}.

(** An unresolved domain without any credential. *)
Definition unresolved_info : Info.t :=
  Info.mk "example-test123.com" true false None (Some false) None None None
    None None None None None.

(** A Semrush answer with a header and one row. *)
Definition SEMRUSH_ONE_ROW : string :=
  "Domain;Rank;Organic Keywords" ++ CRLF ++ "example.com;1;2;3;4;5;6;7".

(** A runtime that parses the texts of a table.  Every date is rendered
    as [moment] renders the first day of 2030 during 2026, and [URI]
    refuses the port of [example.com:abc]. *)
Definition runtime_of (table : list (string * value)) : builtins :=
  {| JSON_parse := parse_table table;
     StringToNumber := fun _ => NaN;
     ToPrimitive := fun _ => VStr "[object Object]";
     fromNow := fun _ => "in 3 years";
     URI_tld := fun domain =>
       if String.eqb domain "example.com:abc" then Abrupt TypeError
       else Normal (VStr "com") |}.

(** [{"WhoisRecord":{"createdDate":"2016-01-01","expiresDate":"2030-01-01",
    "estimatedDomainAge":3650,"registryData":{"status":"pendingDelete"}},
    "server":"whois"}] *)
Definition WHOIS_RECORD : string :=
  "{" ++ quoted "WhoisRecord" ++ ":{" ++ quoted "createdDate" ++ ":"
      ++ quoted "2016-01-01" ++ "," ++ quoted "expiresDate" ++ ":"
      ++ quoted "2030-01-01" ++ "," ++ quoted "estimatedDomainAge"
      ++ ":3650," ++ quoted "registryData" ++ ":{" ++ quoted "status" ++ ":"
      ++ quoted "pendingDelete" ++ "}}," ++ quoted "server" ++ ":"
      ++ quoted "whois" ++ "}".

Definition WHOIS_RECORD_PROPERTIES : list (string * value) :=
  [ ("WhoisRecord",
     VObj [ ("createdDate", VStr "2016-01-01");
            ("expiresDate", VStr "2030-01-01");
            ("estimatedDomainAge", VNum (Num 3650));
            ("registryData", VObj [("status", VStr "pendingDelete")]) ]);
    ("server", VStr "whois") ].

(** [{"ErrorMessage":{"errorCode":"WHOIS_01"}}]: an error message without
    [msg]. *)
Definition WHOIS_ERROR_NO_MSG : string :=
  "{" ++ quoted "ErrorMessage" ++ ":{" ++ quoted "errorCode" ++ ":"
      ++ quoted "WHOIS_01" ++ "}}".

(** [{"DataTables":{"Results":{"Data":[{"TrustFlow":3},{"TrustFlow":50}]}}}] *)
Definition MAJESTIC_TWO_ROWS : string :=
  "{" ++ quoted "DataTables" ++ ":{" ++ quoted "Results" ++ ":{"
      ++ quoted "Data" ++ ":[{" ++ quoted "TrustFlow" ++ ":3},{"
      ++ quoted "TrustFlow" ++ ":50}]}}}".

Definition answers_runtime : builtins :=
  runtime_of
    [ (WHOIS_RECORD, VObj WHOIS_RECORD_PROPERTIES);
      (WHOIS_ERROR_NO_MSG,
       VObj [("ErrorMessage", VObj [("errorCode", VStr "WHOIS_01")])]);
      (MAJESTIC_TWO_ROWS,
       VObj [("DataTables",
              VObj [("Results",
                     VObj [("Data",
                            VArr [ VObj [("TrustFlow", VNum (Num 3))];
                                   VObj [("TrustFlow", VNum (Num 50))] ]
                                 [])])])]) ].

(** A world in which each provider has its own answer. *)
Definition world_with (resolved : bool) (majestic whois semrush : response)
    (primary google : search_result) : world :=
  {| dns := fun _ => if resolved then Some "93.184.216.34" else None;
     ping := fun _ => true;
     http := fun q =>
       if String.eqb (url q) URL_MAJESTIC_GET_INFO then majestic
       else if String.eqb (url q) URL_WHOIS then whois
       else semrush;
     serp := fun o =>
       if String.eqb (so_q o) "site:example-test123.com /&"
       then primary else google |}.

(** Every provider is down and the searches count 10 and 15 pages. *)
Definition offline (resolved : bool) : world :=
  world_with resolved (NetError "down") (NetError "down") (NetError "down")
    (Count (VNum (Num 10))) (Count (VNum (Num 15))).

(** A request without keys for a domain that carries a port which is not
    a number, and what the first stages find for it when no name
    resolves. *)
Definition port_request (whois noCheckIfDNSResolve : value) : Options.t :=
  {| Options.domain := "example.com:abc";
     Options.majecticKey := VUndef;
     Options.whois := whois;
     Options.semrushKey := VUndef;
     Options.semrushDB := VUndef;
     Options.noCheckIfDNSResolve := noCheckIfDNSResolve;
     Options.minTrustFlow := VUndef;
     Options.host := VUndef;
     Options.proxyList := VUndef |}.


(** A request with every key and credential. *)
Definition all_credentials (noCheckIfDNSResolve minTrustFlow : value)
  : Options.t :=
  request_for (VStr "key") whois_credential (VStr "key") noCheckIfDNSResolve
    minTrustFlow.

(** * Properties *)

(** Splits the goal on every condition of an [if] it contains. *)
Ltac split_ifs :=
  repeat (match goal with
          | |- context [if ?c then _ else _] => destruct c
          end; cbn).

(** ** Running computations *)

Lemma run_bind {A C : Type} (w : world) (p : prog A) (f : A -> prog C) :
  run w (bind p f) =
    match run w p with
    | (t, Ok a) => let (t', o) := run w (f a) in (t ++ t', o)
    | (t, Err e) => (t, Err e)
    | (t, Uncaught x) => (t, Uncaught x)
    end.
Proof.
  induction p as [a|e|x|h k IH|a k IH|q k IH|o k IH]; simpl.
  - destruct (run w (f a)); reflexivity.
  - reflexivity.
  - reflexivity.
  - rewrite IH. destruct (run w (k (dns w h))) as [t [b|e|x]];
      try reflexivity. destruct (run w (f b)); reflexivity.
  - rewrite IH. destruct (run w (k (ping w a))) as [t [b|e|x]];
      try reflexivity. destruct (run w (f b)); reflexivity.
  - rewrite IH. destruct (run w (k (http w q))) as [t [b|e|x]];
      try reflexivity. destruct (run w (f b)); reflexivity.
  - rewrite IH. destruct (run w (k (serp w o))) as [t [b|e|x]];
      try reflexivity. destruct (run w (f b)); reflexivity.
Qed.

Lemma run_bind_outcome {A C : Type} (w : world) (p : prog A)
    (f : A -> prog C) :
  snd (run w (bind p f)) =
    match snd (run w p) with
    | Ok a => snd (run w (f a))
    | Err e => Err e
    | Uncaught x => Uncaught x
    end.
Proof.
  rewrite run_bind. destruct (run w p) as [t [a|e|x]]; simpl; try reflexivity.
  destruct (run w (f a)); reflexivity.
Qed.

Lemma run_attempt {A : Type} (w : world) (p : prog A) :
  run w (attempt p) = (fst (run w p), Ok (snd (run w p))).
Proof.
  induction p as [a|e|x|h k IH|a k IH|q k IH|o k IH]; simpl;
    try reflexivity.
  - rewrite IH. destruct (run w (k (dns w h))); reflexivity.
  - rewrite IH. destruct (run w (k (ping w a))); reflexivity.
  - rewrite IH. destruct (run w (k (http w q))); reflexivity.
  - rewrite IH. destruct (run w (k (serp w o))); reflexivity.
Qed.

(** ** The address resolver *)

(** C7.  [getIp] first looks up the bare domain; it looks up the
    [www.]-prefixed name exactly when the bare lookup failed; the result has
    [isDNSFound = false] exactly when both lookups failed; and whatever the
    resolver answers, the outcome is a result, never an error. *)
Theorem getIp_tries_bare_then_www (w : world) (options : Options.t) :
  exists data,
    run w (getIp options) =
      (EvLookup (Options.domain options)
         :: match dns w (Options.domain options) with
            | Some _ => []
            | None => [EvLookup ("www." ++ Options.domain options)]
            end,
       Ok data)
    /\ (Info.isDNSFound data = false <->
        dns w (Options.domain options) = None
        /\ dns w ("www." ++ Options.domain options) = None).
Proof.
  unfold getIp, waterfall, lookup; cbn [bind run].
  destruct (dns w (Options.domain options)) as [a|] eqn:Hbare;
    cbn [bind run Info.isDNSFound].
  - eexists; split; [reflexivity|]. cbn [Info.isDNSFound]. split.
    + discriminate.
    + intros [H _]; discriminate.
  - destruct (dns w ("www." ++ Options.domain options)) as [a|] eqn:Hwww;
      cbn [bind run]; eexists; (split; [reflexivity|]);
      cbn [Info.isDNSFound]; split; try discriminate; auto.
    intros [_ H]; discriminate.
Qed.

(** ** The liveness prober *)


(** ** The authority fetcher *)

(** C9.  Without a Majestic key the no-key sentinel is the result whatever
    [noCheckIfDNSResolve] and the resolution say, and the sentinel of the
    skipped check is the immediate result exactly when a key is configured,
    [noCheckIfDNSResolve] is set and the domain resolved: the test of the
    key comes before the test of the resolution.  More generally, a
    sentinel with any result code other than the no-key one is the result
    only when a key is configured. *)
Theorem majestic_key_test_comes_first (B : builtins) (generalInfo : Info.t)
    (options : Options.t) :
  (truthy (Options.majecticKey options) = false ->
   getMajesticData B generalInfo options =
     Ret (Info.set_majestic generalInfo NO_MAJESTIC_KEY))
  /\ (getMajesticData B generalInfo options =
        Ret (Info.set_majestic generalInfo NO_CHECK_DNS_RESOLVED)
      <-> truthy (Options.majecticKey options) = true
          /\ truthy (Options.noCheckIfDNSResolve options) = true
          /\ Info.isDNSFound generalInfo = true)
  /\ (forall code,
        getMajesticData B generalInfo options =
          Ret (Info.set_majestic generalInfo
                 (VObj [("TrustFlow", VNum (Num 0));
                        ("ResultCode", VStr code)])) ->
        code <> "NO-MAJESTIC-KEY" ->
        truthy (Options.majecticKey options) = true).
Proof.
  unfold getMajesticData. split; [|split].
  - intros ->. reflexivity.
  - destruct (truthy (Options.majecticKey options)).
    + destruct (truthy (Options.noCheckIfDNSResolve options));
        destruct (Info.isDNSFound generalInfo); cbn [andb]; split;
        try (intros H; discriminate H); try (intros [_ [H1 H2]]; discriminate);
        auto.
    + split.
      * intros H. exfalso. unfold Info.set_majestic in H. discriminate H.
      * intros [H _]. discriminate H.
  - intros code H Hcode.
    destruct (truthy (Options.majecticKey options)); [reflexivity|].
    exfalso. apply Hcode. unfold Info.set_majestic, NO_MAJESTIC_KEY in H.
    injection H as H. symmetry. exact H.
Qed.

(** C5, as the code has it.  Without a Majestic key the authority result is
    exactly [{TrustFlow: 0, ResultCode: "NO-MAJESTIC-KEY"}].  With a key,
    when [noCheckIfDNSResolve] is set and the domain resolved, it is a
    record of the same two fields, with [TrustFlow] 0 and a string as
    [ResultCode], and no request is made. *)
Theorem majestic_sentinels (B : builtins) (generalInfo : Info.t)
    (options : Options.t) :
  (truthy (Options.majecticKey options) = false ->
   getMajesticData B generalInfo options =
     Ret (Info.set_majestic generalInfo
            (VObj [("TrustFlow", VNum (Num 0));
                   ("ResultCode", VStr "NO-MAJESTIC-KEY")])))
  /\ (truthy (Options.majecticKey options) = true ->
      truthy (Options.noCheckIfDNSResolve options) = true ->
      Info.isDNSFound generalInfo = true ->
      exists code,
        getMajesticData B generalInfo options =
          Ret (Info.set_majestic generalInfo
                 (VObj [("TrustFlow", VNum (Num 0));
                        ("ResultCode", VStr code)]))).
Proof.
  unfold getMajesticData. split.
  - intros ->. reflexivity.
  - intros -> -> ->. eexists. reflexivity.
Qed.

(** ** The registration fetcher *)

(** On a numeric threshold other than 0 and a numeric trust flow, the
    second test is the comparison of the two numbers. *)
Lemma below_minTrustFlow_numbers (B : builtins) (generalInfo : Info.t)
    (options : Options.t) (m : value) (score threshold : Z) :
  Options.minTrustFlow options = VNum (Num threshold) ->
  threshold <> 0%Z ->
  Info.majestic generalInfo = Some m ->
  get m "TrustFlow" = Normal (VNum (Num score)) ->
  below_minTrustFlow B generalInfo options = Normal (Z.ltb score threshold).
Proof.
  intros Hmin Hne Hm Hscore. unfold below_minTrustFlow.
  rewrite Hmin, Hm. cbn [truthy Info.read].
  apply Z.eqb_neq in Hne. rewrite Hne. cbn [negb].
  rewrite Hscore. reflexivity.
Qed.

(** C4, as the code has it.  The fetch of the whois data is guarded by
    three tests, taken in this order: [noCheckIfDNSResolve] set and the
    domain resolved; [minTrustFlow] set and the trust flow below it; no
    whois credential.  The first one that holds ends the fetch at once,
    without a request, on the record of [emptyWhoisData]; when none holds
    the request is made.  The second test reads the trust flow, and throws
    when there is no [majestic] object to read it from, whatever the
    credential.  In the record of [emptyWhoisData], [missingData] is
    ["true"] and each of the seven other fields is ["no-data"]. *)
Theorem whois_gates_in_order (B : builtins) (generalInfo : Info.t)
    (options : Options.t) :
  let skip :=
    truthy (Options.noCheckIfDNSResolve options)
    && Info.isDNSFound generalInfo in
  (skip = true -> getWhoisData B generalInfo options = Ret emptyWhoisData)
  /\ (skip = false ->
      below_minTrustFlow B generalInfo options = Normal true ->
      getWhoisData B generalInfo options = Ret emptyWhoisData)
  /\ (skip = false ->
      below_minTrustFlow B generalInfo options = Normal false ->
      has_whois_credential options = Normal false ->
      getWhoisData B generalInfo options = Ret emptyWhoisData)
  /\ (skip = false ->
      below_minTrustFlow B generalInfo options = Normal false ->
      has_whois_credential options = Normal true ->
      exists q k, getWhoisData B generalInfo options = Request q k)
  /\ (skip = false ->
      forall x,
        below_minTrustFlow B generalInfo options = Abrupt x ->
        getWhoisData B generalInfo options = Throw x)
  /\ (exists fields,
        emptyWhoisData = VObj fields
        /\ List.length fields = 8%nat
        /\ own fields "missingData" = VStr "true"
        /\ forall name v,
             In (name, v) fields -> name <> "missingData" ->
             v = VStr "no-data").
Proof.
  cbv zeta. unfold getWhoisData. repeat split.
  - intros ->. reflexivity.
  - intros -> ->. reflexivity.
  - intros -> -> ->. reflexivity.
  - intros -> -> Hc. rewrite Hc. cbn [eval bind].
    unfold has_whois_credential in Hc. unfold whois_query.
    destruct (Options.whois options) as [| |b|n|s|es ps|ps];
      try discriminate Hc; cbn; eauto.
  - intros -> x ->. reflexivity.
  - exists [ ("missingData", VStr "true");
             ("isValidDomain", VStr "no-data");
             ("isPendingDelete", VStr "no-data");
             ("isRedemptionPeriod", VStr "no-data");
             ("createdDate", VStr "no-data");
             ("expiresDate", VStr "no-data");
             ("expiredWaitingTime", VStr "no-data");
             ("estimatedDomainAge", VStr "no-data") ].
    repeat split.
    intros name v Hin Hname. cbn [In] in Hin.
    repeat (destruct Hin as [Hin|Hin];
            [injection Hin as <- <-; try reflexivity;
             exfalso; apply Hname; reflexivity|]).
    destruct Hin.
Qed.

(** ** Splitting a string *)

Lemma append_empty (s : string) : (s ++ "")%string = s.
Proof.
  induction s as [|c s IH]; cbn; [reflexivity|]. rewrite IH. reflexivity.
Qed.

Lemma append_shift (a : string) (c : ascii) (s : string) :
  ((a ++ String c "") ++ s)%string = (a ++ String c s)%string.
Proof.
  induction a as [|x a IH]; cbn; [reflexivity|]. rewrite IH. reflexivity.
Qed.

Lemma length_append (a b : string) :
  String.length (a ++ b)%string = String.length a + String.length b.
Proof.
  induction a as [|x a IH]; cbn; [reflexivity|]. rewrite IH. reflexivity.
Qed.

Lemma prefix_append (a s : string) :
  prefix a s = true -> exists t, s = (a ++ t)%string.
Proof.
  revert s. induction a as [|x a IH]; intros s H.
  - exists s. reflexivity.
  - destruct s as [|y s]; cbn in H; [discriminate|].
    destruct (ascii_dec x y) as [->|]; [|discriminate].
    destruct (IH s H) as [t ->]. exists t. reflexivity.
Qed.

Lemma split_from_skip (sep u t cur : string) :
  split_from sep (String.length u) cur (u ++ t)%string
  = split_from sep 0 cur t.
Proof.
  induction u as [|x u IH]; cbn [String.length append]; [reflexivity|].
  cbn [split_from]. exact IH.
Qed.

Lemma split_from_pieces (sep : string) (skip : nat) (cur s : string) :
  exists piece rest, split_from sep skip cur s = piece :: rest.
Proof.
  revert skip cur. induction s as [|c s IH]; intros skip cur;
    cbn [split_from].
  - eexists _, _. reflexivity.
  - destruct skip as [|k]; [|apply IH].
    destruct (prefix sep (String c s)); [eexists _, _; reflexivity|apply IH].
Qed.

(** Joining the pieces of a split with the separator gives the string
    back. *)
Lemma split_from_join (sep : string) :
  sep <> "" ->
  forall n s cur,
    String.length s <= n ->
    String.concat sep (split_from sep 0 cur s) = (cur ++ s)%string.
Proof.
  intros Hsep n. induction n as [|n IH]; intros s cur Hlen.
  - destruct s; [|cbn in Hlen; lia]. cbn. symmetry. apply append_empty.
  - destruct s as [|c s]; [cbn; symmetry; apply append_empty|].
    cbn [split_from]. destruct (prefix sep (String c s)) eqn:Hp.
    + destruct (prefix_append _ _ Hp) as [t Ht].
      destruct sep as [|x sep']; [contradiction|].
      cbn [append] in Ht. injection Ht as -> ->.
      replace (String.length (String x sep') - 1) with (String.length sep')
        by (cbn; lia).
      rewrite split_from_skip.
      destruct (split_from_pieces (String x sep') 0 "" t)
        as [piece [rest Hsplit]].
      assert (Hjoin : String.concat (String x sep') (split_from (String x sep') 0 "" t)
                      = ("" ++ t)%string).
      { apply IH. cbn in Hlen. rewrite length_append in Hlen. lia. }
      rewrite Hsplit in *.
      change (String.concat (String x sep') (cur :: piece :: rest))
        with (cur ++ String x sep'
                  ++ String.concat (String x sep') (piece :: rest))%string.
      rewrite Hjoin. reflexivity.
    + rewrite IH; [apply append_shift | cbn in Hlen; lia].
Qed.

Lemma split_join (sep s : string) :
  sep <> "" -> String.concat sep (split sep s) = s.
Proof.
  intros Hsep. unfold split.
  rewrite (split_from_join sep Hsep (String.length s)); [reflexivity | lia].
Qed.

Lemma split_from_without (sep s cur : string) :
  contains sep s = false -> split_from sep 0 cur s = [(cur ++ s)%string].
Proof.
  revert cur. induction s as [|c s IH]; intros cur H.
  - cbn. rewrite append_empty. reflexivity.
  - cbn [contains] in H. apply orb_false_iff in H. destruct H as [Hp Hc].
    cbn [split_from]. rewrite Hp. rewrite IH by exact Hc.
    rewrite append_shift. reflexivity.
Qed.

Lemma split_from_with (sep s cur : string) :
  sep <> "" ->
  contains sep s = true ->
  2 <= List.length (split_from sep 0 cur s).
Proof.
  intros Hsep. revert cur. induction s as [|c s IH]; intros cur H.
  - destruct sep; [contradiction|discriminate H].
  - cbn [contains] in H. cbn [split_from].
    destruct (prefix sep (String c s)) eqn:Hp.
    + destruct (split_from_pieces sep (String.length sep - 1) "" s)
        as [piece [rest ->]]. cbn. lia.
    + apply IH. exact H.
Qed.

(** A string splits into a single piece exactly when the separator does
    not occur in it. *)
Lemma split_single (sep s : string) :
  sep <> "" ->
  (List.length (split sep s) < 2 <-> contains sep s = false).
Proof.
  intros Hsep. unfold split. split.
  - intros Hlen. destruct (contains sep s) eqn:Hc; [|reflexivity].
    pose proof (split_from_with sep s "" Hsep Hc). lia.
  - intros Hc. rewrite split_from_without by exact Hc. cbn. lia.
Qed.

(** ** The traffic parser *)

Lemma item_not_number (a : list string) (i : nat) (n : number) :
  item a i <> VNum n.
Proof.
  unfold item. destruct (nth_error a i); discriminate.
Qed.

(** C6, as the code has it.  [convertSemrush] is defined on every string.
    The lines of a response are its pieces between CR-LF pairs; there are
    fewer than two exactly when the response has no CR-LF.  On a response
    of fewer than two lines it answers the record of [emptySemrush]:
    [rank] -1 and 0 in the six other fields.
    Otherwise it splits the second line on [;] and stores its pieces 1 to 7
    in [rank], [oganicKeywords], [organicTraffic], [organicCost],
    [adwordsKeywords], [adwordsTraffic] and [adwordsCost]; each of them is
    the text of the piece, or [undefined] when the line has no such piece,
    and never a number. *)
Theorem convertSemrush_by_lines (semrushResponse : string) :
  let result := split CRLF semrushResponse in
  let response := split ";" (nth 1 result "") in
  String.concat CRLF result = semrushResponse
  /\ (List.length result < 2 <-> contains CRLF semrushResponse = false)
  /\ (List.length result < 2 ->
   convertSemrush semrushResponse =
     VObj [ ("rank", VNum (Num (-1)));
            ("oganicKeywords", VNum (Num 0));
            ("organicTraffic", VNum (Num 0));
            ("organicCost", VNum (Num 0));
            ("adwordsKeywords", VNum (Num 0));
            ("adwordsTraffic", VNum (Num 0));
            ("adwordsCost", VNum (Num 0)) ])
  /\ (2 <= List.length result ->
      convertSemrush semrushResponse =
        VObj [ ("rank", item response 1);
               ("oganicKeywords", item response 2);
               ("organicTraffic", item response 3);
               ("organicCost", item response 4);
               ("adwordsKeywords", item response 5);
               ("adwordsTraffic", item response 6);
               ("adwordsCost", item response 7) ])
  /\ (forall i,
        match nth_error response i with
        | Some text => item response i = VStr text
        | None => item response i = VUndef
        end)
  /\ (forall i n, item response i <> VNum n).
Proof.
  cbv zeta.
  split; [apply split_join; discriminate|].
  split; [apply split_single; discriminate|].
  unfold convertSemrush.
  destruct (Nat.ltb_spec (List.length (split CRLF semrushResponse)) 2)
    as [Hlt|Hge].
  - repeat split; try reflexivity; try (intros; lia).
    + intros i. unfold item. destruct (nth_error _ i); reflexivity.
    + intros i n. apply item_not_number.
  - repeat split; try reflexivity; try (intros; lia).
    + intros i. unfold item. destruct (nth_error _ i); reflexivity.
    + intros i n. apply item_not_number.
Qed.

(** ** The parallel group *)

Lemma run_start_all {A : Type} (w : world) (tasks : list (prog A)) :
  snd (run w (start_all tasks)) = Ok (started w tasks).
Proof.
  induction tasks as [|t rest IH]; [reflexivity|].
  assert (Hstep :
    snd (run w (bind (attempt t) (fun o =>
                bind (start_all rest) (fun os => Ret (o :: os)))))
    = Ok (snd (run w t) :: started w rest)).
  { rewrite run_bind_outcome, run_attempt. cbn [snd].
    rewrite run_bind_outcome, IH. reflexivity. }
  destruct t; try exact Hstep. reflexivity.
Qed.

Lemma run_parallel {A : Type} (w : world) (order : list nat)
    (tasks : list (prog A)) :
  snd (run w (parallel order tasks)) = settle order (started w tasks).
Proof.
  unfold parallel. rewrite run_bind_outcome, run_start_all.
  destruct (settle order (started w tasks)); reflexivity.
Qed.

Lemma first_failure_none {A : Type} (order : list nat)
    (os : list (outcome A)) :
  first_failure order os = None ->
  forall i o, In i order -> nth_error os i = Some o -> exists a, o = Ok a.
Proof.
  induction order as [|j rest IH]; intros Hnone i o Hin Hnth.
  - destruct Hin.
  - cbn [first_failure] in Hnone. destruct Hin as [->|Hin].
    + rewrite Hnth in Hnone. destruct o as [a|e|x];
        [eexists; reflexivity | discriminate | discriminate].
    + destruct (nth_error os j) as [[a|e|x]|]; try discriminate;
        eapply IH; eauto.
Qed.

Lemma first_failure_some {A : Type} (order : list nat)
    (os : list (outcome A)) (f : error + exn) :
  first_failure order os = Some f ->
  exists i,
    nth_error os i =
      Some match f with inl e => Err e | inr x => Uncaught x end.
Proof.
  induction order as [|j rest IH]; intros Hsome; [discriminate|].
  cbn [first_failure] in Hsome.
  destruct (nth_error os j) as [[a|e|x]|] eqn:Hj; auto.
  - injection Hsome as <-. exists j. exact Hj.
  - injection Hsome as <-. exists j. exact Hj.
Qed.

Lemma settle_ok {A : Type} (order : list nat) (os : list (outcome A))
    (vs : list A) :
  settle order os = Ok vs -> os = map Ok vs.
Proof.
  unfold settle.
  destruct (first_failure (order ++ seq 0 (List.length os)) os)
    as [[e|x]|] eqn:Hf; try discriminate.
  intros H. injection H as <-.
  assert (Hall : forall i o, nth_error os i = Some o -> exists a, o = Ok a).
  { intros i o Hnth. eapply first_failure_none; eauto.
    apply in_or_app. right. apply in_seq.
    assert (i < List.length os) by (apply nth_error_Some; congruence). lia. }
  clear Hf. induction os as [|o rest IH]; [reflexivity|].
  destruct (Hall 0%nat o eq_refl) as [a ->]. cbn. f_equal.
  apply IH. intros i o' Hnth. apply (Hall (S i)). exact Hnth.
Qed.

Lemma settle_err {A : Type} (order : list nat) (os : list (outcome A))
    (e : error) :
  settle order os = Err e -> exists i, nth_error os i = Some (Err e).
Proof.
  unfold settle.
  destruct (first_failure (order ++ seq 0 (List.length os)) os)
    as [[e'|x]|] eqn:Hf; try discriminate.
  intros H. injection H as <-.
  apply first_failure_some in Hf. exact Hf.
Qed.

Lemma settle_uncaught {A : Type} (order : list nat) (os : list (outcome A))
    (x : exn) :
  settle order os = Uncaught x ->
  exists i, nth_error os i = Some (Uncaught x).
Proof.
  unfold settle.
  destruct (first_failure (order ++ seq 0 (List.length os)) os)
    as [[e|x']|] eqn:Hf; try discriminate.
  intros H. injection H as <-.
  apply first_failure_some in Hf. exact Hf.
Qed.

Lemma settle_all_ok {A : Type} (order : list nat) (vs : list A) :
  settle order (map Ok vs) = Ok vs.
Proof.
  destruct (settle order (map Ok vs)) as [vs'|e|x] eqn:Hs.
  - apply settle_ok in Hs. f_equal.
    revert vs' Hs. induction vs as [|v vs IH]; intros [|v' vs'] Hs;
      try discriminate; [reflexivity|].
    injection Hs as -> Hs. f_equal. apply IH. exact Hs.
  - apply settle_err in Hs. destruct Hs as [i Hi].
    rewrite nth_error_map in Hi. destruct (nth_error vs i); discriminate.
  - apply settle_uncaught in Hs. destruct Hs as [i Hi].
    rewrite nth_error_map in Hi. destruct (nth_error vs i); discriminate.
Qed.

Lemma started_ok {A : Type} (w : world) (tasks : list (prog A))
    (vs : list A) :
  started w tasks = map Ok vs ->
  map (fun t => snd (run w t)) tasks = map Ok vs.
Proof.
  revert vs. induction tasks as [|t rest IH]; intros vs H.
  - exact H.
  - assert (Hcons : snd (run w t) :: started w rest = map Ok vs ->
                    map (fun t => snd (run w t)) (t :: rest) = map Ok vs).
    { destruct vs as [|v vs]; [discriminate|]. cbn [map].
      intros Heq. injection Heq as Hv Hrest. rewrite Hv. f_equal.
      apply IH. exact Hrest. }
    destruct t; try (apply Hcons; exact H).
    cbn [started] in H. destruct vs; discriminate.
Qed.

Lemma started_no_throw {A : Type} (w : world) (tasks : list (prog A)) :
  (forall t x, In t tasks -> t <> Throw x) ->
  started w tasks = map (fun t => snd (run w t)) tasks.
Proof.
  induction tasks as [|t rest IH]; intros H; [reflexivity|].
  assert (Hrest : started w rest = map (fun t => snd (run w t)) rest).
  { apply IH. intros t' x Hin. apply H. right. exact Hin. }
  destruct t; cbn [started map]; try (rewrite Hrest; reflexivity).
  exfalso. eapply H; [left; reflexivity | reflexivity].
Qed.

(** ** Reading and merging *)

Lemma get_truthy (v : value) (name : string) :
  truthy v = true -> exists x, get v name = Normal x.
Proof.
  destruct v; cbn; intros H; try discriminate; eexists; reflexivity.
Qed.

Lemma is_string_true (v : value) (s : string) :
  is_string v s = true <-> v = VStr s.
Proof.
  destruct v; cbn; split; intros H; try discriminate.
  - apply String.eqb_eq in H. congruence.
  - injection H as ->. apply String.eqb_refl.
Qed.

Lemma run_eval {A : Type} (w : world) (c : completion A) :
  run w (eval c) =
    ([], match c with Normal a => Ok a | Abrupt x => Uncaught x end).
Proof.
  destruct c; reflexivity.
Qed.

(** [merge] ends with the suffix that [getTld] computes, and throws what
    [getTld] throws. *)
Lemma merge_getTld (B : builtins) (info : Info.t) (options : Options.t)
    (results : list value) :
  match getTld B (Options.domain options) with
  | Normal tld =>
      exists data,
        merge B info options results = Normal data
        /\ Info.tld data = Some tld
  | Abrupt x => merge B info options results = Abrupt x
  end.
Proof.
  unfold merge. set (r0 := nth 0 results VUndef).
  destruct (getTld B (Options.domain options)) as [tld|x].
  - destruct (truthy r0) eqn:Hr0.
    + destruct (Info.isDNSFound (Info.set_whois info r0)).
      * cbn [cbind]. eexists. split; reflexivity.
      * cbn [Info.set_whois Info.whois Info.read chain]. rewrite Hr0.
        destruct (get_truthy _ "status" Hr0) as [status ->]. cbn [cbind].
        destruct (truthy status); cbn [cbind]; eexists; split; reflexivity.
    + cbn [cbind]. eexists. split; reflexivity.
  - destruct (truthy r0) eqn:Hr0.
    + destruct (Info.isDNSFound (Info.set_whois info r0)).
      * reflexivity.
      * cbn [Info.set_whois Info.whois Info.read chain]. rewrite Hr0.
        destruct (get_truthy _ "status" Hr0) as [status ->]. cbn [cbind].
        destruct (truthy status); reflexivity.
    + reflexivity.
Qed.

Lemma merge_tld (B : builtins) (info : Info.t) (options : Options.t)
    (results : list value) (data : Info.t) :
  merge B info options results = Normal data ->
  exists tld,
    getTld B (Options.domain options) = Normal tld
    /\ Info.tld data = Some tld.
Proof.
  intros H. pose proof (merge_getTld B info options results) as T.
  destruct (getTld B (Options.domain options)) as [tld|x].
  - exists tld. split; [reflexivity|].
    destruct T as [data' [Hm Ht]]. rewrite Hm in H. injection H as <-.
    exact Ht.
  - rewrite T in H. discriminate H.
Qed.

Lemma merge_isAvailable (B : builtins) (info : Info.t) (options : Options.t)
    (results : list value) (data : Info.t) :
  merge B info options results = Normal data ->
  Info.isDNSFound data = Info.isDNSFound info
  /\ if truthy (nth 0 results VUndef)
     then Info.whois data = Some (nth 0 results VUndef)
          /\ exists status,
               get (nth 0 results VUndef) "status" = Normal status
               /\ Info.isAvailable data =
                    Some (negb (Info.isDNSFound info)
                          && is_string status "AVAILABLE")
     else Info.whois data = Info.whois info
          /\ Info.isAvailable data = Info.isAvailable info.
Proof.
  intros Hmerge. destruct (merge_tld B info options results data Hmerge)
    as [tld [Htld _]].
  revert Hmerge. unfold merge. rewrite Htld.
  set (r0 := nth 0 results VUndef).
  destruct (truthy r0) eqn:Hr0.
  - destruct (get_truthy r0 "status" Hr0) as [status Hstatus].
    destruct (Info.isDNSFound info) eqn:Hdns.
    + cbn [Info.set_whois Info.isDNSFound]. rewrite ?Hdns.
      cbn [cbind]. intros H.
      destruct (truthy (nth 1 results VUndef));
        destruct (truthy (nth 2 results VUndef));
        destruct (truthy (nth 3 results VUndef));
        injection H as <-; cbn; rewrite ?Hdns;
        (split; [reflexivity|split; [reflexivity|]]);
        exists status; (split; [exact Hstatus|reflexivity]).
    + cbn [Info.set_whois Info.isDNSFound Info.whois Info.read].
      rewrite ?Hdns. cbn [chain]. fold r0. rewrite Hr0, Hstatus.
      cbn [cbind].
      assert (Hav : (if truthy status then is_string status "AVAILABLE"
                     else false) = is_string status "AVAILABLE").
      { destruct (truthy status) eqn:Ht; [reflexivity|].
        destruct (is_string status "AVAILABLE") eqn:Hs; [|reflexivity].
        apply is_string_true in Hs. subst status. discriminate Ht. }
      intros H.
      destruct (truthy status);
        destruct (truthy (nth 1 results VUndef));
        destruct (truthy (nth 2 results VUndef));
        destruct (truthy (nth 3 results VUndef));
        injection H as <-; cbn; rewrite ?Hdns;
        (split; [reflexivity|split; [reflexivity|]]);
        exists status; (split; [first [exact Hstatus|reflexivity]|]); cbn;
        first [reflexivity | rewrite <- Hav; reflexivity].
  - cbn [cbind]. intros H.
    destruct (truthy (nth 1 results VUndef));
      destruct (truthy (nth 2 results VUndef));
      destruct (truthy (nth 3 results VUndef));
      injection H as <-; cbn; auto.
Qed.

Lemma merge_index_counts (B : builtins) (info : Info.t)
    (options : Options.t) (results : list value) (data : Info.t) :
  merge B info options results = Normal data ->
  Info.primaryIndex info = None ->
  Info.googleIndex info = None ->
  Info.secondaryIndex info = None ->
  let primary := nth 2 results VUndef in
  let google := nth 3 results VUndef in
  Info.primaryIndex data = (if truthy primary then Some primary else None)
  /\ Info.googleIndex data = (if truthy google then Some google else None)
  /\ Info.secondaryIndex data =
       (if truthy google
        then Some (VNum (subtract B google
                           (if truthy primary then primary else VUndef)))
        else None).
Proof.
  intros H. destruct (merge_tld B info options results data H)
    as [tld [Htld _]].
  unfold merge in H. rewrite Htld in H. intros Hp Hg Hs. cbv zeta.
  cbn [Info.set_whois Info.isDNSFound Info.whois Info.read] in H.
  repeat match type of H with
         | context [cbind (Normal _) _] => cbn [cbind] in H
         | context [cbind (cbind ?c _) _] =>
             destruct c eqn:?; cbn [cbind] in H; try discriminate H
         | context [if ?c then _ else _] =>
             destruct c eqn:?; cbv beta iota in H
         | context [cbind ?c _] =>
             destruct c eqn:?; cbn [cbind] in H; try discriminate H
         end;
    injection H as <-; cbn; rewrite ?Hp, ?Hg, ?Hs; auto.
Qed.

Lemma merge_normal (B : builtins) (info : Info.t) (options : Options.t)
    (results : list value) (tld : value) :
  getTld B (Options.domain options) = Normal tld ->
  exists data, merge B info options results = Normal data.
Proof.
  intros Htld. pose proof (merge_getTld B info options results) as T.
  rewrite Htld in T. destruct T as [data [Hm _]]. exists data. exact Hm.
Qed.

Lemma merge_throws (B : builtins) (info : Info.t) (options : Options.t)
    (results : list value) (x : exn) :
  getTld B (Options.domain options) = Abrupt x ->
  merge B info options results = Abrupt x.
Proof.
  intros Htld. pose proof (merge_getTld B info options results) as T.
  rewrite Htld in T. exact T.
Qed.

(** ** The whole check *)

Lemma check_stages (B : builtins) (order : list nat) (options : Options.t) :
  check B order options =
    bind (authority_stage B options)
      (fun data => getOtherMetrics B order data options).
Proof.
  reflexivity.
Qed.

Lemma authority_stage_stages (B : builtins) (options : Options.t) :
  authority_stage B options =
    bind (bind (getIp options) getPing)
      (fun data => getMajesticData B data options).
Proof.
  reflexivity.
Qed.

Lemma resolution_stage (w : world) (options : Options.t) :
  exists d,
    snd (run w (bind (getIp options) getPing)) = Ok d
    /\ Info.isDNSFound d = resolves w (Options.domain options)
    /\ unmerged d
    /\ Info.majestic d = None.
Proof.
  unfold getIp, waterfall, lookup, getPing, resolves, unmerged.
  destruct (dns w (Options.domain options)) as [a|] eqn:Hbare;
    [|destruct (dns w ("www." ++ Options.domain options)) as [a|] eqn:Hwww];
    cbn -[append]; rewrite ?Hbare; cbn -[append]; rewrite ?Hwww;
    cbn -[append]; eexists; (split; [reflexivity|]); cbn; repeat split.
Qed.

Lemma majestic_ok (B : builtins) (w : world) (d info : Info.t)
    (options : Options.t) :
  snd (run w (getMajesticData B d options)) = Ok info ->
  exists m, info = Info.set_majestic d m.
Proof.
  unfold getMajesticData.
  destruct (truthy (Options.majecticKey options)).
  - destruct (truthy (Options.noCheckIfDNSResolve options)
              && Info.isDNSFound d).
    + cbn. intros H. injection H as <-. eexists. reflexivity.
    + cbn [run]. destruct (http w (majestic_query options)) as [e|code body].
      * cbn. discriminate.
      * destruct (Z.eqb code 200); [|cbn; discriminate].
        destruct (JSON_parse B body) as [v|x]; [|cbn; discriminate].
        cbn [cbind].
        destruct (get v "DataTables") as [v1|x]; [|cbn; discriminate].
        cbn [cbind].
        destruct (get v1 "Results") as [v2|x]; [|cbn; discriminate].
        cbn [cbind].
        destruct (get v2 "Data") as [v3|x]; [|cbn; discriminate].
        cbn [cbind].
        destruct (first v3) as [v4|x]; [|cbn; discriminate].
        cbn. intros H. injection H as <-. eexists. reflexivity.
  - cbn. intros H. injection H as <-. eexists. reflexivity.
Qed.

Lemma authority_stage_ok (B : builtins) (w : world) (options : Options.t)
    (info : Info.t) :
  snd (run w (authority_stage B options)) = Ok info ->
  Info.isDNSFound info = resolves w (Options.domain options)
  /\ unmerged info
  /\ exists m, Info.majestic info = Some m.
Proof.
  rewrite authority_stage_stages, run_bind_outcome.
  destruct (resolution_stage w options) as [d [-> [Hdns [Hun _]]]].
  intros H. apply majestic_ok in H. destruct H as [m ->].
  cbn. split; [exact Hdns|]. split; [exact Hun|]. eexists. reflexivity.
Qed.

Lemma getOtherMetrics_outcome (B : builtins) (w : world) (order : list nat)
    (info : Info.t) (options : Options.t) :
  snd (run w (getOtherMetrics B order info options)) =
    match settle order (started w (group B info options)) with
    | Ok results =>
        match merge B info options results with
        | Normal data => Ok data
        | Abrupt x => Uncaught x
        end
    | Err e => Err e
    | Uncaught x => Uncaught x
    end.
Proof.
  unfold getOtherMetrics. rewrite run_bind_outcome, run_parallel.
  fold (group B info options).
  destruct (settle order (started w (group B info options)));
    try reflexivity.
  rewrite run_eval. reflexivity.
Qed.

Lemma group_ok (B : builtins) (w : world) (order : list nat)
    (info : Info.t) (options : Options.t) (results : list value) :
  settle order (started w (group B info options)) = Ok results ->
  exists r s p g,
    results = [r; s; p; g]
    /\ snd (run w (getWhoisData B info options)) = Ok r
    /\ snd (run w (getSemrushData B info options)) = Ok s
    /\ snd (run w (getIndexedPages options true)) = Ok p
    /\ snd (run w (getIndexedPages options false)) = Ok g.
Proof.
  intros H. apply settle_ok in H. apply started_ok in H.
  unfold group in H. cbn [map] in H.
  destruct results as [|r [|s0 [|p0 [|g [|extra rest]]]]]; try discriminate H.
  injection H as H0 H1 H2 H3. exists r, s0, p0, g. auto.
Qed.

(** C1, as the code has it.  In the result of a completed check
    [isDNSFound] tells whether the resolver found the domain, and [whois]
    is the result of the whois fetch when that result is a record (any
    value that counts as true); then [isAvailable] is [false] when the
    domain resolved, [true] when it did not resolve and the record's
    [status] is ["AVAILABLE"], and [false] when it did not resolve and the
    record has another status or none.  When the result of the whois fetch
    counts as false, neither [whois] nor [isAvailable] is set. *)
Theorem isAvailable_of_completed_check (B : builtins) (w : world)
    (order : list nat) (options : Options.t) (data : Info.t) :
  snd (run w (check B order options)) = Ok data ->
  Info.isDNSFound data = resolves w (Options.domain options)
  /\ (exists info r,
        snd (run w (authority_stage B options)) = Ok info
        /\ snd (run w (getWhoisData B info options)) = Ok r
        /\ Info.whois data = if truthy r then Some r else None)
  /\ match Info.whois data with
     | Some record =>
         (Info.isDNSFound data = true -> Info.isAvailable data = Some false)
         /\ (Info.isDNSFound data = false ->
             get record "status" = Normal (VStr "AVAILABLE") ->
             Info.isAvailable data = Some true)
         /\ (Info.isDNSFound data = false ->
             forall status,
               get record "status" = Normal status ->
               status <> VStr "AVAILABLE" ->
               Info.isAvailable data = Some false)
     | None => Info.isAvailable data = None
     end.
Proof.
  rewrite check_stages, run_bind_outcome.
  destruct (snd (run w (authority_stage B options))) as [info|e|x] eqn:Hstage;
    try discriminate.
  destruct (authority_stage_ok B w options info Hstage)
    as [Hdns [[Hwhois [Havail _]] _]].
  rewrite getOtherMetrics_outcome.
  destruct (settle order (started w (group B info options)))
    as [results|e|x] eqn:Hsettle; try discriminate.
  destruct (group_ok B w order info options results Hsettle)
    as [r [s0 [p0 [g [-> [Hr _]]]]]].
  destruct (merge B info options [r; s0; p0; g]) as [data'|x] eqn:Hmerge;
    try discriminate.
  intros H. injection H as ->.
  destruct (merge_isAvailable B info options _ data Hmerge) as [Hfound Hrest].
  cbn [nth] in Hrest. split; [congruence|].
  destruct (truthy r) eqn:Htruthy.
  - destruct Hrest as [Hw [status [Hstatus Hav]]]. split.
    + exists info, r. rewrite Htruthy. auto.
    + rewrite Hw. rewrite Hav, <- Hfound. repeat split.
      * intros ->. reflexivity.
      * intros -> Hget. rewrite Hstatus in Hget. injection Hget as ->.
        reflexivity.
      * intros -> status' Hget Hne. rewrite Hstatus in Hget.
        injection Hget as ->. cbn [negb andb].
        destruct (is_string status' "AVAILABLE") eqn:Hs; [|reflexivity].
        apply is_string_true in Hs. contradiction.
  - destruct Hrest as [Hw Hav]. split.
    + exists info, r. rewrite Htruthy. rewrite Hw. auto.
    + rewrite Hw, Hwhois, Hav. exact Havail.
Qed.

(** The index counts of a completed check: each count is stored when it
    counts as true, and the difference is computed whenever the full count
    is stored, on [undefined] when the primary count is not. *)
Lemma index_counts_of_completed_check (B : builtins) (w : world)
    (order : list nat) (options : Options.t) (data : Info.t) :
  snd (run w (check B order options)) = Ok data ->
  exists primary google,
    snd (run w (getIndexedPages options true)) = Ok primary
    /\ snd (run w (getIndexedPages options false)) = Ok google
    /\ Info.primaryIndex data = (if truthy primary then Some primary else None)
    /\ Info.googleIndex data = (if truthy google then Some google else None)
    /\ Info.secondaryIndex data =
         (if truthy google
          then Some (VNum (subtract B google
                             (if truthy primary then primary else VUndef)))
          else None).
Proof.
  rewrite check_stages, run_bind_outcome.
  destruct (snd (run w (authority_stage B options))) as [info|e|x] eqn:Hstage;
    try discriminate.
  destruct (authority_stage_ok B w options info Hstage)
    as [_ [[_ [_ [Hp [Hg Hs]]]] _]].
  rewrite getOtherMetrics_outcome.
  destruct (settle order (started w (group B info options)))
    as [results|e|x] eqn:Hsettle; try discriminate.
  destruct (group_ok B w order info options results Hsettle)
    as [r [s0 [p0 [g [-> [_ [_ [Hprimary Hgoogle]]]]]]]].
  destruct (merge B info options [r; s0; p0; g]) as [data'|x] eqn:Hmerge;
    try discriminate.
  intros H. injection H as ->.
  exists p0, g. split; [exact Hprimary|]. split; [exact Hgoogle|].
  exact (merge_index_counts B info options _ data Hmerge Hp Hg Hs).
Qed.

(** An integer of magnitude below 2^53 is a double. *)
Lemma to_double_exact (z : Z) :
  (Z.abs z < 2 ^ 53)%Z -> to_double z = z.
Proof.
  intros H. unfold to_double. apply Z.ltb_lt in H. rewrite H. reflexivity.
Qed.

(** On two counts that are integers other than 0 the difference is the
    double nearest to the full count minus the primary count: the exact
    difference when its magnitude is below 2^53. *)
Lemma secondaryIndex_of_nonzero_counts (B : builtins) (w : world)
    (order : list nat) (options : Options.t) (data : Info.t) (p g : Z) :
  snd (run w (check B order options)) = Ok data ->
  snd (run w (getIndexedPages options true)) = Ok (VNum (Num p)) ->
  snd (run w (getIndexedPages options false)) = Ok (VNum (Num g)) ->
  p <> 0%Z -> g <> 0%Z ->
  Info.secondaryIndex data = Some (VNum (Num (to_double (g - p)))).
Proof.
  intros Hcheck Hprimary Hgoogle Hp Hg.
  destruct (index_counts_of_completed_check B w order options data Hcheck)
    as [primary [google [Hp' [Hg' [_ [_ Hs]]]]]].
  rewrite Hprimary in Hp'. injection Hp' as <-.
  rewrite Hgoogle in Hg'. injection Hg' as <-.
  rewrite Hs. cbn [truthy].
  apply Z.eqb_neq in Hp, Hg. rewrite Hp, Hg. reflexivity.
Qed.

(** ** Failures of the providers *)

Lemma has_whois_credential_normal (options : Options.t) :
  exists b, has_whois_credential options = Normal b.
Proof.
  unfold has_whois_credential.
  destruct (Options.whois options) as [| |b|[z|]|t|es ps|ps]; cbn;
    split_ifs; eexists; reflexivity.
Qed.

Lemma whois_request (B : builtins) (info : Info.t) (options : Options.t)
    (q : query) (k : response -> prog value) :
  getWhoisData B info options = Request q k ->
  truthy (Options.noCheckIfDNSResolve options) && Info.isDNSFound info = false
  /\ below_minTrustFlow B info options = Normal false
  /\ k = whois_callback B.
Proof.
  unfold getWhoisData.
  destruct (truthy (Options.noCheckIfDNSResolve options)
            && Info.isDNSFound info); [discriminate|].
  destruct (below_minTrustFlow B info options) as [[|]|x];
    cbn [eval bind]; try discriminate.
  destruct (has_whois_credential options) as [[|]|x];
    cbn [eval bind]; try discriminate.
  destruct (whois_query options) as [query|x]; cbn [eval bind];
    try discriminate.
  intros H. injection H as _ Hk. repeat split. symmetry. exact Hk.
Qed.

Lemma whois_starts (B : builtins) (info : Info.t) (options : Options.t)
    (b : bool) :
  below_minTrustFlow B info options = Normal b ->
  forall x, getWhoisData B info options <> Throw x.
Proof.
  intros Hbelow x. unfold getWhoisData.
  destruct (truthy (Options.noCheckIfDNSResolve options)
            && Info.isDNSFound info); [discriminate|].
  rewrite Hbelow. cbn [eval bind]. destruct b; [discriminate|].
  unfold has_whois_credential, whois_query.
  destruct (Options.whois options) as [| |c|[z|]|t|es ps|ps]; cbn;
    split_ifs; discriminate.
Qed.

Lemma semrush_starts (B : builtins) (info : Info.t) (options : Options.t)
    (b : bool) :
  below_minTrustFlow B info options = Normal b ->
  forall x, getSemrushData B info options <> Throw x.
Proof.
  intros Hbelow x. unfold getSemrushData.
  destruct (truthy (Options.semrushKey options)); [|discriminate].
  destruct (truthy (Options.noCheckIfDNSResolve options)
            && Info.isDNSFound info); [discriminate|].
  rewrite Hbelow. cbn [eval bind]. destruct b; discriminate.
Qed.

Lemma search_outcome (w : world) (options : Options.t) (primary : bool) :
  (forall x, getIndexedPages options primary <> Throw x)
  /\ (forall x, snd (run w (getIndexedPages options primary)) <> Uncaught x).
Proof.
  unfold getIndexedPages. split; intros x; [discriminate|].
  cbn [run]. destruct (serp w _); cbn; discriminate.
Qed.

Lemma group_started (B : builtins) (w : world) (info : Info.t)
    (options : Options.t) (b : bool) :
  below_minTrustFlow B info options = Normal b ->
  started w (group B info options) =
    [ snd (run w (getWhoisData B info options));
      snd (run w (getSemrushData B info options));
      snd (run w (getIndexedPages options true));
      snd (run w (getIndexedPages options false)) ].
Proof.
  intros Hbelow. rewrite started_no_throw; [reflexivity|].
  intros t x Hin. unfold group in Hin. cbn [In] in Hin.
  destruct Hin as [<-|[<-|[<-|[<-|[]]]]].
  - eapply whois_starts; eauto.
  - eapply semrush_starts; eauto.
  - apply (search_outcome w).
  - apply (search_outcome w).
Qed.





Lemma nth_error_four {A : Type} (a b c d : A) (i : nat) (x : A) :
  nth_error [a; b; c; d] i = Some x -> x = a \/ x = b \/ x = c \/ x = d.
Proof.
  destruct i as [|[|[|[|i]]]]; cbn; intros H; try (injection H as <-; auto).
  destruct i; discriminate.
Qed.


(** * The properties on the scenarios *)

(** A resolved domain, a whois credential, and a whois answer with status
    200 whose body is the JSON text [false]: the check completes, the
    domain resolved, and [isAvailable] is not [false] but unset. *)
Lemma isAvailable_unset_on_falsy_whois :
  exists data,
    snd (run (world_of true (Reply 200 "false") (VNum (Num 10))
                (VNum (Num 15)))
           (check sample_runtime []
              (request_for VUndef whois_credential VUndef VUndef VUndef)))
      = Ok data
    /\ Info.isDNSFound data = true
    /\ Info.whois data = None
    /\ Info.isAvailable data <> Some false.
Proof.
  eexists. split; [vm_compute; reflexivity|].
  cbn. repeat split. discriminate.
Qed.

(** An unresolved domain whose whois record has the status
    ["AVAILABLE"] is available. *)
Lemma isAvailable_of_completed_check_witness :
  exists data,
    snd (run (world_of false (Reply 200 WHOIS_AVAILABLE) (VNum (Num 10))
                (VNum (Num 15)))
           (check sample_runtime []
              (request_for VUndef whois_credential VUndef VUndef VUndef)))
      = Ok data
    /\ Info.isAvailable data = Some true.
Proof.
  destruct (snd (run (world_of false (Reply 200 WHOIS_AVAILABLE)
                        (VNum (Num 10)) (VNum (Num 15)))
                   (check sample_runtime []
                      (request_for VUndef whois_credential VUndef VUndef
                         VUndef))))
    as [data|e|x] eqn:H; try (vm_compute in H; discriminate H).
  pose proof (isAvailable_of_completed_check _ _ _ _ _ H) as [_ [_ T]].
  exists data. split; [reflexivity|].
  vm_compute in H. injection H as <-.
  cbn in T. destruct T as [_ [T _]]. apply T; reflexivity.
Defined.

(** C2 on a primary count of 0.  The domain does not resolve and no
    credential is given; the search of the primary index reports 0 pages
    and the full search 15.  The check completes with no [primaryIndex] and
    with [NaN] as [secondaryIndex], where the difference of the counts is
    15.  With 10 and 0 pages it completes with neither [googleIndex] nor
    [secondaryIndex], where the difference is -10. *)
Theorem secondaryIndex_on_a_count_of_zero :
  (exists data,
     snd (run (world_of false (NetError "down") (VNum (Num 0))
                 (VNum (Num 15)))
            (check sample_runtime [] no_credentials)) = Ok data
     /\ Info.primaryIndex data = None
     /\ Info.googleIndex data = Some (VNum (Num 15))
     /\ Info.secondaryIndex data = Some (VNum NaN))
  /\ (exists data,
        snd (run (world_of false (NetError "down") (VNum (Num 10))
                    (VNum (Num 0)))
               (check sample_runtime [] no_credentials)) = Ok data
        /\ Info.primaryIndex data = Some (VNum (Num 10))
        /\ Info.googleIndex data = None
        /\ Info.secondaryIndex data = None).
Proof.
  split; eexists; (split; [vm_compute; reflexivity|]); cbn; auto.
Qed.

(** C10 on an answer without a row.  A Majestic key and a [minTrustFlow]
    of 10 are given, and Majestic answers with status 200 and an empty
    [Data] array.  The authority stage ends without an error and stores
    [undefined] as [majestic]; [getWhoisData] then throws on reading
    [TrustFlow], and so does the check. *)
Theorem majestic_undefined_on_empty_Data :
  let options :=
    request_for (VStr "key") whois_credential VUndef VUndef (VNum (Num 10)) in
  let w :=
    world_of false (Reply 200 MAJESTIC_NO_ROW) (VNum (Num 10))
      (VNum (Num 15)) in
  exists info,
    snd (run w (authority_stage sample_runtime options)) = Ok info
    /\ Info.majestic info = Some VUndef
    /\ getWhoisData sample_runtime info options = Throw TypeError
    /\ snd (run w (check sample_runtime [] options)) = Uncaught TypeError.
Proof.
  cbv zeta. eexists. split; [vm_compute; reflexivity|].
  split; [reflexivity|]. split; vm_compute; reflexivity.
Qed.

(** Without a whois credential the fetch ends on the record of
    [emptyWhoisData], and a field of that record is not ["no-data"]. *)
Lemma emptyWhoisData_has_another_value :
  has_whois_credential no_credentials = Normal false
  /\ exists fields,
       getWhoisData sample_runtime unresolved_info no_credentials
         = Ret (VObj fields)
       /\ In ("missingData", VStr "true") fields
       /\ VStr "true" <> VStr "no-data".
Proof.
  split; [reflexivity|]. eexists. split; [reflexivity|].
  split; [left; reflexivity | discriminate].
Qed.

Lemma whois_gates_in_order_witness :
  getWhoisData sample_runtime
    (Info.mk "example-test123.com" false true (Some "93.184.216.34")
       (Some true) None None None None None None None None)
    (request_for VUndef whois_credential VUndef (VBool true) (VNum (Num 10)))
    = Ret emptyWhoisData
  /\ getWhoisData sample_runtime
       (Info.set_majestic unresolved_info
          (VObj [("TrustFlow", VNum (Num 3))]))
       (request_for (VStr "key") whois_credential VUndef VUndef
          (VNum (Num 10)))
     = Ret emptyWhoisData
  /\ getWhoisData sample_runtime unresolved_info no_credentials
     = Ret emptyWhoisData
  /\ exists q k,
       getWhoisData sample_runtime unresolved_info
         (request_for VUndef whois_credential VUndef VUndef VUndef)
       = Request q k.
Proof.
  split; [|split; [|split]].
  - pose proof (whois_gates_in_order sample_runtime
        (Info.mk "example-test123.com" false true (Some "93.184.216.34")
           (Some true) None None None None None None None None)
        (request_for VUndef whois_credential VUndef (VBool true)
           (VNum (Num 10)))) as T.
    cbv zeta in T. destruct T as [T _]. apply T. reflexivity.
  - pose proof (whois_gates_in_order sample_runtime
        (Info.set_majestic unresolved_info
           (VObj [("TrustFlow", VNum (Num 3))]))
        (request_for (VStr "key") whois_credential VUndef VUndef
           (VNum (Num 10)))) as T.
    cbv zeta in T. destruct T as [_ [T _]]. apply T; reflexivity.
  - pose proof (whois_gates_in_order sample_runtime unresolved_info
        no_credentials) as T.
    cbv zeta in T. destruct T as [_ [_ [T _]]]. apply T; reflexivity.
  - pose proof (whois_gates_in_order sample_runtime unresolved_info
        (request_for VUndef whois_credential VUndef VUndef VUndef)) as T.
    cbv zeta in T. destruct T as [_ [_ [_ [T _]]]]. apply T; reflexivity.
Defined.

(** Without a Majestic key the result code is not ["NO-KEY"]. *)
Lemma no_key_code_is_NO_MAJESTIC_KEY :
  truthy (Options.majecticKey no_credentials) = false
  /\ getMajesticData sample_runtime unresolved_info no_credentials
     <> Ret (Info.set_majestic unresolved_info
               (VObj [("TrustFlow", VNum (Num 0));
                      ("ResultCode", VStr "NO-KEY")])).
Proof.
  split; [reflexivity|]. cbn. discriminate.
Qed.

Lemma majestic_sentinels_witness :
  getMajesticData sample_runtime unresolved_info no_credentials
    = Ret (Info.set_majestic unresolved_info
             (VObj [("TrustFlow", VNum (Num 0));
                    ("ResultCode", VStr "NO-MAJESTIC-KEY")]))
  /\ exists code,
       getMajesticData sample_runtime
         (Info.mk "example-test123.com" false true (Some "93.184.216.34")
            (Some true) None None None None None None None None)
         (request_for (VStr "key") VUndef VUndef (VBool true) VUndef)
       = Ret (Info.set_majestic
                (Info.mk "example-test123.com" false true
                   (Some "93.184.216.34") (Some true) None None None None
                   None None None None)
                (VObj [("TrustFlow", VNum (Num 0));
                       ("ResultCode", VStr code)])).
Proof.
  split.
  - apply (proj1 (majestic_sentinels sample_runtime unresolved_info
                    no_credentials)).
    reflexivity.
  - apply (proj2 (majestic_sentinels sample_runtime
                    (Info.mk "example-test123.com" false true
                       (Some "93.184.216.34") (Some true) None None None
                       None None None None None)
                    (request_for (VStr "key") VUndef VUndef (VBool true)
                       VUndef)));
      reflexivity.
Defined.

(** Without a key, a set [noCheckIfDNSResolve] and a resolved domain
    still give the no-key sentinel. *)
Lemma majestic_key_test_comes_first_witness :
  getMajesticData sample_runtime
    (Info.mk "example-test123.com" false true (Some "93.184.216.34")
       (Some true) None None None None None None None None)
    (request_for VUndef VUndef VUndef (VBool true) VUndef)
  = Ret (Info.set_majestic
           (Info.mk "example-test123.com" false true (Some "93.184.216.34")
              (Some true) None None None None None None None None)
           NO_MAJESTIC_KEY)
  /\ getMajesticData sample_runtime
       (Info.mk "example-test123.com" false true (Some "93.184.216.34")
          (Some true) None None None None None None None None)
       (request_for (VStr "key") VUndef VUndef (VBool true) VUndef)
     = Ret (Info.set_majestic
              (Info.mk "example-test123.com" false true
                 (Some "93.184.216.34") (Some true) None None None None None
                 None None None)
              NO_CHECK_DNS_RESOLVED).
Proof.
  split.
  - apply (proj1 (majestic_key_test_comes_first sample_runtime
                    (Info.mk "example-test123.com" false true
                       (Some "93.184.216.34") (Some true) None None None
                       None None None None None)
                    (request_for VUndef VUndef VUndef (VBool true) VUndef))).
    reflexivity.
  - apply (proj1 (proj2 (majestic_key_test_comes_first sample_runtime
                    (Info.mk "example-test123.com" false true
                       (Some "93.184.216.34") (Some true) None None None
                       None None None None None)
                    (request_for (VStr "key") VUndef VUndef (VBool true)
                       VUndef)))).
    repeat split.
Defined.

(** The rank of a parsed row is a text, not a number. *)
Lemma convertSemrush_rank_is_text :
  2 <= List.length (split CRLF SEMRUSH_ONE_ROW)
  /\ get (convertSemrush SEMRUSH_ONE_ROW) "rank" = Normal (VStr "1")
  /\ forall n, VStr "1" <> VNum n.
Proof.
  split; [vm_compute; lia|]. split; [vm_compute; reflexivity|].
  intros n. discriminate.
Qed.

Lemma convertSemrush_by_lines_witness :
  convertSemrush "ERROR 50 :: NOTHING FOUND" = emptySemrush
  /\ convertSemrush SEMRUSH_ONE_ROW =
       VObj [ ("rank", VStr "1");
              ("oganicKeywords", VStr "2");
              ("organicTraffic", VStr "3");
              ("organicCost", VStr "4");
              ("adwordsKeywords", VStr "5");
              ("adwordsTraffic", VStr "6");
              ("adwordsCost", VStr "7") ].
Proof.
  split.
  - pose proof (convertSemrush_by_lines "ERROR 50 :: NOTHING FOUND")
      as [_ [_ [T _]]].
    rewrite T; [reflexivity | vm_compute; lia].
  - pose proof (convertSemrush_by_lines SEMRUSH_ONE_ROW)
      as [_ [_ [_ [T _]]]].
    rewrite T; [vm_compute; reflexivity | vm_compute; lia].
Defined.



(** Neither name resolves: both lookups are made and the result is a
    record with [isDNSFound = false]. *)
Lemma getIp_tries_bare_then_www_witness :
  exists data,
    run (world_of false (NetError "down") (VNum (Num 10)) (VNum (Num 15)))
        (getIp no_credentials)
      = ([EvLookup "example-test123.com";
          EvLookup "www.example-test123.com"], Ok data)
    /\ Info.isDNSFound data = false.
Proof.
  destruct (getIp_tries_bare_then_www
              (world_of false (NetError "down") (VNum (Num 10))
                 (VNum (Num 15)))
              no_credentials) as [data [Hrun Hfound]].
  exists data. split; [exact Hrun|].
  apply Hfound. split; reflexivity.
Defined.

(** * Further properties *)

(** ** Traces *)

Lemma run_bind_trace {A C : Type} (w : world) (p : prog A) (f : A -> prog C) :
  fst (run w (bind p f)) =
    fst (run w p)
    ++ match snd (run w p) with
       | Ok a => fst (run w (f a))
       | _ => []
       end.
Proof.
  rewrite run_bind. destruct (run w p) as [t [a|e|x]]; cbn [fst snd].
  - destruct (run w (f a)); reflexivity.
  - symmetry. apply app_nil_r.
  - symmetry. apply app_nil_r.
Qed.

Lemma run_start_all_trace {A : Type} (w : world) (tasks : list (prog A)) :
  fst (run w (start_all tasks)) = started_trace w tasks.
Proof.
  induction tasks as [|t rest IH]; [reflexivity|].
  assert (Hstep :
    fst (run w (bind (attempt t) (fun o =>
                bind (start_all rest) (fun os => Ret (o :: os)))))
    = fst (run w t) ++ started_trace w rest).
  { rewrite run_bind_trace, run_attempt. cbn [fst snd].
    rewrite run_bind_trace, IH, run_start_all. cbn. rewrite app_nil_r.
    reflexivity. }
  destruct t; try exact Hstep. reflexivity.
Qed.

Lemma run_parallel_trace {A : Type} (w : world) (order : list nat)
    (tasks : list (prog A)) :
  fst (run w (parallel order tasks)) = started_trace w tasks.
Proof.
  unfold parallel. rewrite run_bind_trace, run_start_all_trace, run_start_all.
  destruct (settle order (started w tasks)); cbn; apply app_nil_r.
Qed.

Lemma getOtherMetrics_trace (B : builtins) (w : world) (order : list nat)
    (info : Info.t) (options : Options.t) :
  fst (run w (getOtherMetrics B order info options)) =
    started_trace w (group B info options).
Proof.
  unfold getOtherMetrics. rewrite run_bind_trace, run_parallel_trace.
  destruct (snd (run w (parallel order (group B info options))));
    [rewrite run_eval|..]; cbn; apply app_nil_r.
Qed.

Lemma started_trace_no_throw {A : Type} (w : world) (tasks : list (prog A)) :
  (forall t x, In t tasks -> t <> Throw x) ->
  started_trace w tasks = flat_map (fun t => fst (run w t)) tasks.
Proof.
  induction tasks as [|t rest IH]; intros H; [reflexivity|].
  assert (Hrest : started_trace w rest
                  = flat_map (fun t => fst (run w t)) rest).
  { apply IH. intros t' x Hin. apply H. right. exact Hin. }
  destruct t; cbn [started_trace flat_map]; try (rewrite Hrest; reflexivity).
  exfalso. eapply H; [left; reflexivity | reflexivity].
Qed.

Lemma search_run (w : world) (options : Options.t) (primary : bool) :
  run w (getIndexedPages options primary) =
    ([EvSearch (search_query options primary)],
     match serp w (search_query options primary) with
     | SearchError e => Err (Transport e)
     | Count v => Ok v
     end).
Proof.
  unfold getIndexedPages, search_query. cbn [run].
  destruct (serp w _); reflexivity.
Qed.

(** ** The record of the first stages *)

Lemma resolution_stage_run (w : world) (options : Options.t) :
  run w (bind (getIp options) getPing) =
    match dns w (Options.domain options) with
    | Some a =>
        ([EvLookup (Options.domain options); EvProbe (VStr a)],
         Ok (Info.mk (Options.domain options) false true (Some a)
               (Some (ping w (VStr a))) None None None None None None None
               None))
    | None =>
        match dns w ("www." ++ Options.domain options) with
        | Some a =>
            ([EvLookup (Options.domain options);
              EvLookup ("www." ++ Options.domain options);
              EvProbe (VStr a)],
             Ok (Info.mk (Options.domain options) true true (Some a)
                   (Some (ping w (VStr a))) None None None None None None
                   None None))
        | None =>
            ([EvLookup (Options.domain options);
              EvLookup ("www." ++ Options.domain options)],
             Ok (Info.mk (Options.domain options) true false None
                   (Some false) None None None None None None None None))
        end
    end.
Proof.
  unfold getIp, waterfall, lookup, getPing.
  destruct (dns w (Options.domain options)) as [a|] eqn:Hbare;
    [|destruct (dns w ("www." ++ Options.domain options)) as [a|] eqn:Hwww];
    cbn -[append]; rewrite ?Hbare; cbn -[append]; rewrite ?Hwww;
    reflexivity.
Qed.

(** X1.  Whatever the resolver answers, [getIp] ends with a record whose
    [domain] is the bare domain, also when the [www.] name is the one that
    resolved; [withWWW] tells that the bare lookup failed; [ip] is the
    address of the first lookup that succeeded and is set exactly when
    [isDNSFound] is true. *)
Theorem getIp_record (w : world) (options : Options.t) :
  exists data,
    snd (run w (getIp options)) = Ok data
    /\ Info.domain data = Options.domain options
    /\ Info.withWWW data =
         match dns w (Options.domain options) with
         | Some _ => false
         | None => true
         end
    /\ Info.ip data = resolved_address w (Options.domain options)
    /\ Info.isDNSFound data =
         match Info.ip data with
         | Some _ => true
         | None => false
         end.
Proof.
  unfold getIp, waterfall, lookup, resolved_address.
  destruct (dns w (Options.domain options)) as [a|] eqn:Hbare;
    [|destruct (dns w ("www." ++ Options.domain options)) as [a|] eqn:Hwww];
    cbn -[append]; rewrite ?Hbare; cbn -[append]; rewrite ?Hwww;
    eexists; (split; [reflexivity|]); cbn -[append]; auto.
Qed.

Lemma merge_keeps (B : builtins) (info : Info.t) (options : Options.t)
    (results : list value) (data : Info.t) :
  merge B info options results = Normal data ->
  Info.domain data = Info.domain info
  /\ Info.withWWW data = Info.withWWW info
  /\ Info.ip data = Info.ip info
  /\ Info.isAlive data = Info.isAlive info
  /\ Info.majestic data = Info.majestic info
  /\ (exists tld,
        getTld B (Options.domain options) = Normal tld
        /\ Info.tld data = Some tld)
  /\ Info.semrush data =
       (if truthy (nth 1 results VUndef)
        then Some (nth 1 results VUndef) else Info.semrush info).
Proof.
  intros H. destruct (merge_tld B info options results data H)
    as [tld [Htld _]].
  unfold merge in H. rewrite Htld in H.
  cbn [Info.set_whois Info.isDNSFound Info.whois Info.read] in H.
  repeat match type of H with
         | context [cbind (Normal _) _] => cbn [cbind] in H
         | context [cbind (cbind ?c _) _] =>
             destruct c eqn:?; cbn [cbind] in H; try discriminate H
         | context [if ?c then _ else _] =>
             destruct c eqn:?; cbv beta iota in H
         | context [cbind ?c _] =>
             destruct c eqn:?; cbn [cbind] in H; try discriminate H
         end;
    injection H as <-; cbn; eauto 10.
Qed.

Lemma check_ok (B : builtins) (w : world) (order : list nat)
    (options : Options.t) (data : Info.t) :
  snd (run w (check B order options)) = Ok data ->
  exists d m r s p g,
    snd (run w (bind (getIp options) getPing)) = Ok d
    /\ snd (run w (getMajesticData B d options)) = Ok (Info.set_majestic d m)
    /\ snd (run w (getWhoisData B (Info.set_majestic d m) options)) = Ok r
    /\ snd (run w (getSemrushData B (Info.set_majestic d m) options)) = Ok s
    /\ snd (run w (getIndexedPages options true)) = Ok p
    /\ snd (run w (getIndexedPages options false)) = Ok g
    /\ merge B (Info.set_majestic d m) options [r; s; p; g] = Normal data.
Proof.
  rewrite check_stages, run_bind_outcome.
  rewrite authority_stage_stages, run_bind_outcome.
  destruct (resolution_stage w options) as [d [Hd _]]. rewrite Hd.
  destruct (snd (run w (getMajesticData B d options))) as [info|e|x]
    eqn:Hmajestic; try discriminate.
  destruct (majestic_ok B w d info options Hmajestic) as [m ->].
  rewrite getOtherMetrics_outcome.
  destruct (settle order _) as [results|e|x] eqn:Hsettle; try discriminate.
  destruct (group_ok B w order _ options results Hsettle)
    as [r [s0 [p0 [g [-> [Hr [Hs [Hp Hg]]]]]]]].
  destruct (merge B _ options [r; s0; p0; g]) as [data'|x] eqn:Hmerge;
    try discriminate.
  intros H. injection H as ->.
  exists d, m, r, s0, p0, g. auto 10.
Qed.

(** X2.  The result of a completed check keeps what the first stages found:
    [domain] is the domain asked for, [isDNSFound] tells whether the bare
    or the [www.] name resolved, [ip] is the address found and is absent
    when none was, [isAlive] is the answer of the probe on that address and
    [false] when there is no address, [majestic] is set, and [tld] is the
    suffix that [getTld] computes for the domain, which has not thrown. *)
Theorem completed_check_record (B : builtins) (w : world) (order : list nat)
    (options : Options.t) (data : Info.t) :
  snd (run w (check B order options)) = Ok data ->
  Info.domain data = Options.domain options
  /\ Info.isDNSFound data = resolves w (Options.domain options)
  /\ Info.ip data = resolved_address w (Options.domain options)
  /\ Info.isAlive data =
       Some match resolved_address w (Options.domain options) with
            | Some a => ping w (VStr a)
            | None => false
            end
  /\ (exists m, Info.majestic data = Some m)
  /\ (exists tld,
        getTld B (Options.domain options) = Normal tld
        /\ Info.tld data = Some tld).
Proof.
  intros H.
  destruct (check_ok B w order options data H)
    as [d [m [r [s0 [p0 [g [Hd [_ [_ [_ [_ [_ Hmerge]]]]]]]]]]]].
  pose proof (resolution_stage_run w options) as Hrun.
  destruct (merge_keeps B _ options _ data Hmerge)
    as [Hdomain [_ [Hip [Halive [Hmaj [Htld _]]]]]].
  destruct (merge_isAvailable B _ options _ data Hmerge) as [Hfound _].
  rewrite Hdomain, Hfound, Hip, Halive, Hmaj.
  unfold resolves, resolved_address.
  destruct (dns w (Options.domain options)) as [a|];
    [|destruct (dns w ("www." ++ Options.domain options)) as [a|]];
    rewrite Hrun in Hd; cbn [snd] in Hd; injection Hd as <-; cbn;
    repeat split; eauto.
Qed.

(** ** The calls of a check *)

Lemma check_trace (B : builtins) (w : world) (order : list nat)
    (options : Options.t) :
  exists d,
    snd (run w (bind (getIp options) getPing)) = Ok d
    /\ fst (run w (check B order options)) =
         fst (run w (bind (getIp options) getPing))
         ++ fst (run w (getMajesticData B d options))
         ++ match snd (run w (getMajesticData B d options)) with
            | Ok info => started_trace w (group B info options)
            | _ => []
            end.
Proof.
  destruct (resolution_stage w options) as [d [Hd _]]. exists d.
  split; [exact Hd|].
  rewrite check_stages, authority_stage_stages.
  set (R := bind (getIp options) getPing) in *.
  rewrite (run_bind_trace w (bind R _)).
  rewrite (run_bind_outcome w R), (run_bind_trace w R), Hd.
  rewrite <- app_assoc. f_equal. f_equal.
  destruct (snd (run w (getMajesticData B d options))); try reflexivity.
  apply getOtherMetrics_trace.
Qed.

Lemma requests_app (t u : list event) :
  requests (t ++ u) = requests t ++ requests u.
Proof.
  unfold requests. apply flat_map_app.
Qed.

Lemma searches_app (t u : list event) :
  searches (t ++ u) = searches t ++ searches u.
Proof.
  unfold searches. apply flat_map_app.
Qed.

Lemma probes_app (t u : list event) :
  probes (t ++ u) = probes t ++ probes u.
Proof.
  unfold probes. apply flat_map_app.
Qed.

Lemma resolution_stage_calls (w : world) (options : Options.t) :
  requests (fst (run w (bind (getIp options) getPing))) = []
  /\ searches (fst (run w (bind (getIp options) getPing))) = []
  /\ probes (fst (run w (bind (getIp options) getPing))) =
       match resolved_address w (Options.domain options) with
       | Some a => [VStr a]
       | None => []
       end.
Proof.
  rewrite resolution_stage_run. unfold resolved_address.
  destruct (dns w (Options.domain options)) as [a|];
    [|destruct (dns w ("www." ++ Options.domain options)) as [a|]];
    repeat split.
Qed.

Lemma majestic_trace (B : builtins) (w : world) (d : Info.t)
    (options : Options.t) :
  fst (run w (getMajesticData B d options)) =
    if truthy (Options.majecticKey options)
       && negb (truthy (Options.noCheckIfDNSResolve options)
                && Info.isDNSFound d)
    then [EvRequest (majestic_query options)]
    else [].
Proof.
  unfold getMajesticData.
  destruct (truthy (Options.majecticKey options)); [|reflexivity].
  destruct (truthy (Options.noCheckIfDNSResolve options)
            && Info.isDNSFound d); [reflexivity|].
  cbn [run andb negb].
  destruct (http w (majestic_query options)) as [e|code body];
    [reflexivity|].
  destruct (Z.eqb code 200); [|reflexivity].
  rewrite run_eval. reflexivity.
Qed.

Lemma whois_trace (B : builtins) (w : world) (info : Info.t)
    (options : Options.t) :
  fst (run w (getWhoisData B info options)) = []
  \/ exists q,
       fst (run w (getWhoisData B info options)) = [EvRequest q]
       /\ url q = URL_WHOIS
       /\ whois_query options = Normal q.
Proof.
  unfold getWhoisData.
  destruct (truthy (Options.noCheckIfDNSResolve options)
            && Info.isDNSFound info); [left; reflexivity|].
  destruct (below_minTrustFlow B info options) as [[|]|x];
    cbn [eval bind]; try (left; reflexivity).
  destruct (has_whois_credential options) as [[|]|x];
    cbn [eval bind]; try (left; reflexivity).
  destruct (whois_query options) as [query|x] eqn:Hq; cbn [eval bind];
    try (left; reflexivity).
  right. exists query. cbn [run]. unfold whois_callback.
  split; [|split; [|reflexivity]].
  - destruct (http w query) as [e|code body]; [reflexivity|].
    destruct (Z.eqb code 200); [|reflexivity].
    rewrite run_eval. reflexivity.
  - unfold whois_query in Hq.
    destruct (get (Options.whois options) "user"); [|discriminate].
    destruct (get (Options.whois options) "password"); [|discriminate].
    cbn in Hq. injection Hq as <-. reflexivity.
Qed.

Lemma semrush_trace (B : builtins) (w : world) (info : Info.t)
    (options : Options.t) :
  fst (run w (getSemrushData B info options)) = []
  \/ fst (run w (getSemrushData B info options))
     = [EvRequest (semrush_query options)].
Proof.
  unfold getSemrushData.
  destruct (truthy (Options.semrushKey options)); [|left; reflexivity].
  destruct (truthy (Options.noCheckIfDNSResolve options)
            && Info.isDNSFound info); [left; reflexivity|].
  destruct (below_minTrustFlow B info options) as [[|]|x];
    cbn [eval bind]; try (left; reflexivity).
  right. cbn [run].
  destruct (http w (semrush_query options)) as [e|code body];
    [reflexivity|].
  destruct (Z.eqb code 200); reflexivity.
Qed.

Lemma not_throw_of_ok {A : Type} (w : world) (p : prog A) (a : A) :
  snd (run w p) = Ok a -> forall x, p <> Throw x.
Proof.
  intros H x ->. discriminate H.
Qed.

Lemma group_trace_started (B : builtins) (w : world) (info : Info.t)
    (options : Options.t) :
  (forall x, getWhoisData B info options <> Throw x) ->
  (forall x, getSemrushData B info options <> Throw x) ->
  started_trace w (group B info options) =
    fst (run w (getWhoisData B info options))
    ++ fst (run w (getSemrushData B info options))
    ++ [EvSearch (search_query options true);
        EvSearch (search_query options false)].
Proof.
  intros Hw Hs. rewrite started_trace_no_throw.
  - unfold group. cbn [flat_map]. rewrite !search_run. cbn [fst].
    rewrite app_nil_r. reflexivity.
  - intros t x Hin. unfold group in Hin. cbn [In] in Hin.
    destruct Hin as [<-|[<-|[<-|[<-|[]]]]]; auto; apply (search_outcome w).
Qed.

Lemma completed_group_trace (B : builtins) (w : world) (order : list nat)
    (info : Info.t) (options : Options.t) (results : list value) :
  settle order (started w (group B info options)) = Ok results ->
  started_trace w (group B info options) =
    fst (run w (getWhoisData B info options))
    ++ fst (run w (getSemrushData B info options))
    ++ [EvSearch (search_query options true);
        EvSearch (search_query options false)].
Proof.
  intros Hsettle.
  destruct (group_ok B w order info options results Hsettle)
    as [r [s0 [p0 [g [_ [Hr [Hs _]]]]]]].
  apply group_trace_started; eapply not_throw_of_ok; eauto.
Qed.

(** X3.  A completed check has made the two searches, the one of the
    primary index first, each exactly once; it has probed the address found
    and nothing else; and its HTTP requests are, in this order, at most one
    to Majestic (made exactly when a key is given and the check is not
    skipped for a resolved domain), at most one to the whois service and at
    most one to Semrush. *)
Theorem completed_check_calls (B : builtins) (w : world) (order : list nat)
    (options : Options.t) (data : Info.t) :
  snd (run w (check B order options)) = Ok data ->
  searches (fst (run w (check B order options))) =
    [search_query options true; search_query options false]
  /\ probes (fst (run w (check B order options))) =
       match resolved_address w (Options.domain options) with
       | Some a => [VStr a]
       | None => []
       end
  /\ exists to_majestic to_whois to_semrush,
       requests (fst (run w (check B order options))) =
         to_majestic ++ to_whois ++ to_semrush
       /\ to_majestic =
            (if truthy (Options.majecticKey options)
                && negb (truthy (Options.noCheckIfDNSResolve options)
                         && resolves w (Options.domain options))
             then [majestic_query options] else [])
       /\ (to_whois = []
           \/ exists q, to_whois = [q] /\ whois_query options = Normal q)
       /\ (to_semrush = [] \/ to_semrush = [semrush_query options]).
Proof.
  intros H.
  destruct (check_trace B w order options) as [d [Hd ->]].
  destruct (resolution_stage_calls w options) as [Hreq [Hsearch Hprobe]].
  destruct (resolution_stage w options) as [d' [Hd' [Hfound _]]].
  rewrite Hd in Hd'. injection Hd' as <-.
  revert H. rewrite check_stages, run_bind_outcome.
  rewrite authority_stage_stages, run_bind_outcome, Hd.
  pose proof (majestic_trace B w d options) as Hmt. rewrite Hfound in Hmt.
  destruct (snd (run w (getMajesticData B d options))) as [info|e|x];
    try discriminate.
  rewrite getOtherMetrics_outcome.
  destruct (settle order _) as [results|e|x] eqn:Hsettle; try discriminate.
  intros _.
  rewrite (completed_group_trace B w order info options results Hsettle).
  rewrite !searches_app, !probes_app, !requests_app.
  rewrite Hreq, Hsearch, Hprobe, Hmt.
  set (key := truthy (Options.majecticKey options)
              && negb (truthy (Options.noCheckIfDNSResolve options)
                       && resolves w (Options.domain options))).
  assert (Hws : searches (fst (run w (getWhoisData B info options))) = []
                /\ probes (fst (run w (getWhoisData B info options))) = []).
  { destruct (whois_trace B w info options) as [->|[q [-> _]]];
      split; reflexivity. }
  assert (Hss : searches (fst (run w (getSemrushData B info options))) = []
                /\ probes (fst (run w (getSemrushData B info options))) = []).
  { destruct (semrush_trace B w info options) as [->| ->];
      split; reflexivity. }
  destruct Hws as [-> ->]. destruct Hss as [-> ->].
  split; [destruct key; reflexivity|].
  split; [destruct key; cbn; rewrite app_nil_r; reflexivity|].
  exists (if key then [majestic_query options] else []),
         (requests (fst (run w (getWhoisData B info options)))),
         (requests (fst (run w (getSemrushData B info options)))).
  split; [|split; [reflexivity|split]].
  - cbn [app]. destruct key; cbn; rewrite ?app_nil_r; reflexivity.
  - destruct (whois_trace B w info options) as [->|[q [-> [_ Hq]]]];
      [left; reflexivity|right]. exists q. split; [reflexivity|exact Hq].
  - destruct (semrush_trace B w info options) as [->| ->];
      [left|right]; reflexivity.
Qed.

(** ** Skipped fetches *)

Lemma merge_sentinels (B : builtins) (info : Info.t) (options : Options.t)
    (p g : value) (data : Info.t) :
  merge B info options [emptyWhoisData; emptySemrush; p; g] = Normal data ->
  Info.whois data = Some emptyWhoisData
  /\ Info.semrush data = Some emptySemrush
  /\ Info.isAvailable data = Some false
  /\ Info.majestic data = Info.majestic info.
Proof.
  intros Hmerge.
  destruct (merge_keeps B _ options _ data Hmerge)
    as [_ [_ [_ [_ [Hmaj [_ Hsem]]]]]].
  destruct (merge_isAvailable B _ options _ data Hmerge) as [_ Hav].
  cbn in Hsem, Hav. destruct Hav as [Hw [status [Hstatus Hav]]].
  injection Hstatus as <-. cbn in Hav. rewrite andb_false_r in Hav. auto.
Qed.

Lemma sentinel_check (B : builtins) (w : world) (order : list nat)
    (options : Options.t) (d : Info.t) (m : value) :
  snd (run w (bind (getIp options) getPing)) = Ok d ->
  getMajesticData B d options = Ret (Info.set_majestic d m) ->
  getWhoisData B (Info.set_majestic d m) options = Ret emptyWhoisData ->
  getSemrushData B (Info.set_majestic d m) options = Ret emptySemrush ->
  requests (fst (run w (check B order options))) = []
  /\ (forall data,
        snd (run w (check B order options)) = Ok data ->
        Info.majestic data = Some m
        /\ Info.whois data = Some emptyWhoisData
        /\ Info.semrush data = Some emptySemrush
        /\ Info.isAvailable data = Some false)
  /\ (forall p g,
        serp w (search_query options true) = Count p ->
        serp w (search_query options false) = Count g ->
        match getTld B (Options.domain options) with
        | Normal _ =>
            exists data, snd (run w (check B order options)) = Ok data
        | Abrupt x => snd (run w (check B order options)) = Uncaught x
        end).
Proof.
  intros Hd Hm Hw Hs. split; [|split].
  - destruct (check_trace B w order options) as [d' [Hd' ->]].
    rewrite Hd in Hd'. injection Hd' as <-.
    rewrite Hm. cbn [run fst snd].
    rewrite group_trace_started by (intros x; rewrite ?Hw, ?Hs; discriminate).
    rewrite Hw, Hs. cbn [run fst app].
    rewrite requests_app.
    destruct (resolution_stage_calls w options) as [-> _]. reflexivity.
  - intros data H.
    destruct (check_ok B w order options data H)
      as [d' [m' [r [s0 [p0 [g [Hd' [Hm' [Hr [Hs' [_ [_ Hmerge]]]]]]]]]]]].
    rewrite Hd in Hd'. injection Hd' as <-.
    rewrite Hm in Hm'. cbn in Hm'. injection Hm' as Hm'.
    assert (m' = m) as -> by (unfold Info.set_majestic in Hm'; congruence).
    rewrite Hw in Hr. cbn in Hr. injection Hr as <-.
    rewrite Hs in Hs'. cbn in Hs'. injection Hs' as <-.
    destruct (merge_sentinels B _ options p0 g data Hmerge)
      as [H1 [H2 [H3 H4]]].
    rewrite H4. auto.
  - intros p g Hp Hg.
    rewrite check_stages, run_bind_outcome.
    rewrite authority_stage_stages, run_bind_outcome, Hd, Hm.
    cbn [run snd]. rewrite getOtherMetrics_outcome.
    rewrite started_no_throw.
    + unfold group. cbn [map]. rewrite Hw, Hs, !search_run, Hp, Hg.
      cbn [run snd].
      change [Ok emptyWhoisData; Ok emptySemrush; Ok p; Ok g]
        with (map (@Ok value) [emptyWhoisData; emptySemrush; p; g]).
      rewrite settle_all_ok.
      destruct (getTld B (Options.domain options)) as [tld|x] eqn:Htld.
      * destruct (merge_normal B (Info.set_majestic d m) options
                    [emptyWhoisData; emptySemrush; p; g] tld Htld)
          as [data ->].
        exists data. reflexivity.
      * rewrite (merge_throws B (Info.set_majestic d m) options _ x Htld).
        reflexivity.
    + intros t x Hin. unfold group in Hin. cbn [In] in Hin.
      destruct Hin as [<-|[<-|[<-|[<-|[]]]]];
        rewrite ?Hw, ?Hs; try discriminate; apply (search_outcome w).
Qed.

(** X4.  When [noCheckIfDNSResolve] is set and the domain resolves, the
    check makes no HTTP request at all, whatever keys and credentials are
    given; its result, when it has one, carries the record of
    [emptyWhoisData], the record of [emptySemrush], [isAvailable = false],
    and as [majestic] the sentinel of the skipped check when a Majestic key
    is given, the no-key sentinel otherwise; and once the two searches
    answer with a count, it completes if [getTld] answers for the domain,
    and ends with the exception of [getTld] if it throws. *)
Theorem skipped_check_for_resolved_domain (B : builtins) (w : world)
    (order : list nat) (options : Options.t) :
  truthy (Options.noCheckIfDNSResolve options) = true ->
  resolves w (Options.domain options) = true ->
  requests (fst (run w (check B order options))) = []
  /\ (forall data,
        snd (run w (check B order options)) = Ok data ->
        Info.majestic data =
          Some (if truthy (Options.majecticKey options)
                then NO_CHECK_DNS_RESOLVED else NO_MAJESTIC_KEY)
        /\ Info.whois data = Some emptyWhoisData
        /\ Info.semrush data = Some emptySemrush
        /\ Info.isAvailable data = Some false)
  /\ (forall p g,
        serp w (search_query options true) = Count p ->
        serp w (search_query options false) = Count g ->
        match getTld B (Options.domain options) with
        | Normal _ =>
            exists data, snd (run w (check B order options)) = Ok data
        | Abrupt x => snd (run w (check B order options)) = Uncaught x
        end).
Proof.
  intros Hflag Hres.
  destruct (resolution_stage w options) as [d [Hd [Hfound _]]].
  rewrite Hres in Hfound.
  apply (sentinel_check B w order options d
           (if truthy (Options.majecticKey options)
            then NO_CHECK_DNS_RESOLVED else NO_MAJESTIC_KEY) Hd).
  - unfold getMajesticData. rewrite Hflag, Hfound.
    destruct (truthy (Options.majecticKey options)); reflexivity.
  - unfold getWhoisData. cbn [Info.set_majestic Info.isDNSFound].
    rewrite Hflag, Hfound. reflexivity.
  - unfold getSemrushData. cbn [Info.set_majestic Info.isDNSFound].
    rewrite Hflag, Hfound.
    destruct (truthy (Options.semrushKey options)); reflexivity.
Qed.


(** ** Failures that end the check *)

(** X6.  When the Majestic request fails (transport error or a status
    other than 200) the check stops there: after the lookups and the probe
    its only call is the Majestic request; it makes no whois request, no
    Semrush request and no search. *)
Theorem majestic_failure_stops_the_calls (B : builtins) (w : world)
    (order : list nat) (options : Options.t) :
  truthy (Options.majecticKey options) = true ->
  truthy (Options.noCheckIfDNSResolve options)
  && resolves w (Options.domain options) = false ->
  failed (http w (majestic_query options)) = true ->
  fst (run w (check B order options)) =
    fst (run w (bind (getIp options) getPing))
    ++ [EvRequest (majestic_query options)]
  /\ requests (fst (run w (check B order options))) = [majestic_query options]
  /\ searches (fst (run w (check B order options))) = [].
Proof.
  intros Hkey Hskip Hfailed.
  destruct (check_trace B w order options) as [d [Hd Htrace]].
  destruct (resolution_stage w options) as [d' [Hd' [Hfound _]]].
  rewrite Hd in Hd'. injection Hd' as <-.
  assert (Hm : run w (getMajesticData B d options) =
               ([EvRequest (majestic_query options)],
                snd (run w (getMajesticData B d options)))
               /\ forall info,
                    snd (run w (getMajesticData B d options)) <> Ok info).
  { unfold getMajesticData. rewrite Hkey, Hfound, Hskip. cbn [run].
    destruct (http w (majestic_query options)) as [e|code body].
    - split; [reflexivity|discriminate].
    - cbn [failed] in Hfailed. destruct (Z.eqb code 200); [discriminate|].
      split; [reflexivity|discriminate]. }
  destruct Hm as [Hrun Hnot].
  assert (Hall : fst (run w (check B order options)) =
                 fst (run w (bind (getIp options) getPing))
                 ++ [EvRequest (majestic_query options)]).
  { rewrite Htrace, Hrun. cbn [fst snd].
    destruct (snd (run w (getMajesticData B d options))) as [info|e|x];
      [exfalso; eapply Hnot; reflexivity|reflexivity|reflexivity]. }
  rewrite Hall, requests_app, searches_app.
  destruct (resolution_stage_calls w options) as [-> [-> _]].
  repeat split.
Qed.

Lemma semrush_not_uncaught (B : builtins) (w : world) (info : Info.t)
    (options : Options.t) (b : bool) :
  below_minTrustFlow B info options = Normal b ->
  forall x, snd (run w (getSemrushData B info options)) <> Uncaught x.
Proof.
  intros Hbelow x. unfold getSemrushData.
  destruct (truthy (Options.semrushKey options)); [|discriminate].
  destruct (truthy (Options.noCheckIfDNSResolve options)
            && Info.isDNSFound info); [discriminate|].
  rewrite Hbelow. cbn [eval bind]. destruct b; [discriminate|].
  cbn [run]. destruct (http w (semrush_query options)) as [e|code body];
    [discriminate|].
  destruct (Z.eqb code 200); discriminate.
Qed.

(** X7.  When one of the two searches answers with an error, the check
    does not complete, whatever the other fetches answer: it ends with an
    error, unless the callback of the whois request has thrown before. *)
Theorem search_failure_is_fatal (B : builtins) (w : world)
    (order : list nat) (options : Options.t) (info : Info.t) (b primary : bool)
    (e : string) :
  snd (run w (authority_stage B options)) = Ok info ->
  below_minTrustFlow B info options = Normal b ->
  serp w (search_query options primary) = SearchError e ->
  match snd (run w (check B order options)) with
  | Ok _ => False
  | Err _ => True
  | Uncaught x => snd (run w (getWhoisData B info options)) = Uncaught x
  end.
Proof.
  intros Hstage Hbelow Hserp.
  rewrite check_stages, run_bind_outcome, Hstage.
  rewrite getOtherMetrics_outcome.
  assert (Hfail : snd (run w (getIndexedPages options primary))
                  = Err (Transport e)).
  { rewrite search_run, Hserp. reflexivity. }
  destruct (settle order _) as [results|e'|x] eqn:Hsettle.
  - destruct (group_ok B w order info options results Hsettle)
      as [r [s0 [p0 [g [_ [_ [_ [Hp Hg]]]]]]]].
    destruct primary; congruence.
  - exact I.
  - apply settle_uncaught in Hsettle. destruct Hsettle as [i Hi].
    rewrite (group_started B w info options b Hbelow) in Hi.
    apply nth_error_four in Hi.
    destruct Hi as [Hi|[Hi|[Hi|Hi]]].
    + symmetry. exact Hi.
    + exfalso. symmetry in Hi. revert Hi.
      eapply semrush_not_uncaught. exact Hbelow.
    + exfalso. symmetry in Hi. revert Hi. apply (search_outcome w).
    + exfalso. symmetry in Hi. revert Hi. apply (search_outcome w).
Qed.

(** ** The fields added to a whois answer *)

Lemma own_put_same (ps : list (string * value)) (name : string) (v : value) :
  own (put ps name v) name = v.
Proof.
  induction ps as [|[k w] ps IH]; cbn.
  - rewrite String.eqb_refl. reflexivity.
  - destruct (String.eqb k name) eqn:Hk; cbn; rewrite Hk;
      [reflexivity|exact IH].
Qed.

Lemma own_put_other (ps : list (string * value)) (name other : string)
    (v : value) :
  name <> other -> own (put ps name v) other = own ps other.
Proof.
  intros Hne. induction ps as [|[k w] ps IH]; cbn.
  - apply String.eqb_neq in Hne. rewrite Hne. reflexivity.
  - destruct (String.eqb k name) eqn:Hk; cbn.
    + apply String.eqb_eq in Hk. subst k.
      apply String.eqb_neq in Hne. rewrite Hne. reflexivity.
    + destruct (String.eqb k other); [reflexivity|exact IH].
Qed.

(** The computation a chain of binds starts with. *)
Ltac head_of c :=
  lazymatch c with
  | cbind ?c' _ => head_of c'
  | _ => c
  end.

(** Runs the first step of the computation in [H : c = Normal _]. *)
Ltac step H :=
  cbn [cbind get set] in H;
  repeat rewrite own_put_other in H by discriminate;
  lazymatch type of H with
  | ?lhs = _ =>
      let c := head_of lhs in
      lazymatch c with
      | if ?b then _ else _ => destruct b eqn:?
      | Normal _ => fail
      | _ => destruct c eqn:?; [|discriminate H]
      end
  end.

Lemma whois_200_object (B : builtins) (body : string)
    (ps : list (string * value)) (info : value) :
  JSON_parse B body = Normal (VObj ps) ->
  whois_200 B body = Normal info ->
  exists invalid dataError status pending redemption created expires age,
    info = VObj (normalized B ps invalid dataError status pending redemption
                   created expires age)
    /\ (if truthy (own ps "ErrorMessage")
        then exists msg,
               get (own ps "ErrorMessage") "msg" = Normal msg
               /\ indexOf_found msg INVALID_DOMAIN_MESSAGE = Normal invalid
        else invalid = false)
    /\ chain (own ps "WhoisRecord") ["dataError"] = Normal dataError
    /\ chain (own ps "WhoisRecord") ["registryData"; "status"] = Normal status
    /\ (truthy status = true ->
        indexOf_found status PENDING_DELETE = Normal pending
        /\ indexOf_found status REDEMPTION_PERIOD = Normal redemption)
    /\ chain (own ps "WhoisRecord") ["createdDate"] = Normal created
    /\ chain (own ps "WhoisRecord") ["expiresDate"] = Normal expires
    /\ chain (own ps "WhoisRecord") ["estimatedDomainAge"] = Normal age.
Proof.
  intros Hparse H. unfold whois_200 in H. rewrite Hparse in H.
  repeat step H.
  all: cbn [cbind] in H; injection H as <-.
  all: do 8 eexists.
  all: split; [|split; [|split; [reflexivity|split; [reflexivity|
         split; [|split; [reflexivity|split; reflexivity]]]]]].
  all: try (first [reflexivity
                  | eexists; split; [reflexivity|eassumption]]).
  all: try (intros Ht; first [split; eassumption | congruence]).
  all: unfold normalized; cbv zeta;
       repeat match goal with
              | Hb : truthy ?v = _ |- context [truthy ?v] => rewrite Hb
              end;
       try reflexivity.
  Unshelve. all: exact false.
Qed.

(** Reads a property through the assignments made before. *)
Ltac read_put :=
  repeat (rewrite own_put_same || rewrite own_put_other by discriminate).

(** X8.  A whois answer with status 200 whose body is a JSON object comes
    out of the callback as an object in which the eight fields below are
    always set: [isValidDomain] and [missingData] are booleans,
    [isPendingDelete] and [isRedemptionPeriod] are booleans or ["no-data"],
    [createdDate] and [expiresDate] count as true, [expiredWaitingTime] and
    [estimatedDomainAge] are strings. *)
Theorem whois_derived_fields_set (B : builtins) (body : string)
    (ps : list (string * value)) (info : value) :
  JSON_parse B body = Normal (VObj ps) ->
  whois_200 B body = Normal info ->
  exists ps',
    info = VObj ps'
    /\ (exists b, own ps' "isValidDomain" = VBool b)
    /\ (exists b, own ps' "missingData" = VBool b)
    /\ (own ps' "isPendingDelete" = VStr "no-data"
        \/ exists b, own ps' "isPendingDelete" = VBool b)
    /\ (own ps' "isRedemptionPeriod" = VStr "no-data"
        \/ exists b, own ps' "isRedemptionPeriod" = VBool b)
    /\ truthy (own ps' "createdDate") = true
    /\ truthy (own ps' "expiresDate") = true
    /\ (exists text, own ps' "expiredWaitingTime" = VStr text)
    /\ (exists text, own ps' "estimatedDomainAge" = VStr text).
Proof.
  intros Hparse H.
  destruct (whois_200_object B body ps info Hparse H)
    as [invalid [dataError [status [pending [redemption [created [expires
       [age [-> _]]]]]]]]].
  eexists. split; [reflexivity|]. unfold normalized. cbv zeta.
  destruct (truthy status); destruct (truthy created) eqn:Hc;
    destruct (truthy expires) eqn:He; destruct (truthy age);
    read_put; rewrite ?Hc, ?He; repeat split; eauto.
Qed.

(** X9.  The callback leaves every other property of the answer as it
    was: a property whose name is not one of the nine names the callback
    assigns reads the same before and after. *)
Theorem whois_answer_kept (B : builtins) (body : string)
    (ps : list (string * value)) (info : value) (name : string) :
  JSON_parse B body = Normal (VObj ps) ->
  whois_200 B body = Normal info ->
  ~ In name WHOIS_DERIVED ->
  get info name = Normal (own ps name).
Proof.
  intros Hparse H Hname.
  destruct (whois_200_object B body ps info Hparse H)
    as [invalid [dataError [status [pending [redemption [created [expires
       [age [-> _]]]]]]]]].
  unfold WHOIS_DERIVED in Hname. cbn [In] in Hname.
  cbn [get]. f_equal. unfold normalized. cbv zeta.
  destruct (truthy status); destruct (truthy expires);
    repeat (rewrite own_put_other
              by (intros Heq; apply Hname; rewrite Heq; tauto));
    reflexivity.
Qed.

(** X10.  The status of the registry is copied to [status] when the answer
    has one that counts as true, and [isPendingDelete] and
    [isRedemptionPeriod] then tell whether it contains ["pendingDelete"]
    and ["redemptionPeriod"]; otherwise both flags are ["no-data"] and
    [status] is left as the answer had it. *)
Theorem whois_status_flags (B : builtins) (body : string)
    (ps : list (string * value)) (info status : value) :
  JSON_parse B body = Normal (VObj ps) ->
  whois_200 B body = Normal info ->
  chain (own ps "WhoisRecord") ["registryData"; "status"] = Normal status ->
  if truthy status
  then exists pending redemption,
         indexOf_found status PENDING_DELETE = Normal pending
         /\ indexOf_found status REDEMPTION_PERIOD = Normal redemption
         /\ get info "status" = Normal status
         /\ get info "isPendingDelete" = Normal (VBool pending)
         /\ get info "isRedemptionPeriod" = Normal (VBool redemption)
  else get info "status" = Normal (own ps "status")
       /\ get info "isPendingDelete" = Normal (VStr "no-data")
       /\ get info "isRedemptionPeriod" = Normal (VStr "no-data").
Proof.
  intros Hparse H Hstatus.
  destruct (whois_200_object B body ps info Hparse H)
    as [invalid [dataError [status' [pending [redemption [created [expires
       [age [-> [_ [_ [Hstatus' [Hflags _]]]]]]]]]]]]].
  rewrite Hstatus in Hstatus'. injection Hstatus' as <-.
  unfold normalized. cbv zeta. cbn [get].
  destruct (truthy status) eqn:Ht.
  - destruct (Hflags eq_refl) as [Hp Hr]. exists pending, redemption.
    destruct (truthy expires); read_put; auto.
  - destruct (truthy expires); read_put; auto.
Qed.

(** The number of hundredths that [hundredths] computes is the one
    nearest to the quotient, and a quotient by 365 is never half-way. *)
Lemma hundredths_nearest (z : Z) :
  (2 * Z.abs (365 * hundredths z 365 - 100 * z) < 365)%Z.
Proof.
  unfold hundredths.
  pose proof (Z.div_mod (200 * z + 365) (2 * 365) ltac:(lia)) as Hdiv.
  pose proof (Z.mod_pos_bound (200 * z + 365) (2 * 365) ltac:(lia)) as Hmod.
  lia.
Qed.

Lemma yearsToFixed2_days (B : builtins) (days : Z) :
  (0 < days)%Z ->
  yearsToFixed2 B (VNum (Num days)) =
    (decimal (hundredths days 365 / 100)%Z ++ "."
     ++ decimal (hundredths days 365 mod 100 / 10)%Z
     ++ decimal (hundredths days 365 mod 10)%Z)%string.
Proof.
  intros Hpos. unfold yearsToFixed2, ToNumber, primitive, quotient_toFixed2.
  rewrite Z.abs_eq by lia.
  destruct (Z.ltb_spec days 0); [lia|]. reflexivity.
Qed.

(** X11.  [createdDate] and [expiresDate] are the dates of the whois record
    when it has them and ["no-data"] otherwise; [expiredWaitingTime] is the
    rendering of the expiry date by [moment] and ["no-data"] without one;
    [estimatedDomainAge] is ["no-data"] without an age, and otherwise the
    text of the age divided by 365 with two decimals: for an age of [days]
    days, a positive integer below 2^47, it is the digits of [n / 100], a
    point and the two digits of [n mod 100], where [n] is the integer
    nearest to [100 * days / 365]. *)
Theorem whois_dates (B : builtins) (body : string)
    (ps : list (string * value)) (info created expires age : value) :
  JSON_parse B body = Normal (VObj ps) ->
  whois_200 B body = Normal info ->
  chain (own ps "WhoisRecord") ["createdDate"] = Normal created ->
  chain (own ps "WhoisRecord") ["expiresDate"] = Normal expires ->
  chain (own ps "WhoisRecord") ["estimatedDomainAge"] = Normal age ->
  get info "createdDate" =
    Normal (if truthy created then created else VStr "no-data")
  /\ get info "expiresDate" =
       Normal (if truthy expires then expires else VStr "no-data")
  /\ get info "expiredWaitingTime" =
       Normal (if truthy expires then VStr (fromNow B expires)
               else VStr "no-data")
  /\ get info "estimatedDomainAge" =
       Normal (if truthy age then VStr (yearsToFixed2 B age)
               else VStr "no-data")
  /\ (forall days,
        age = VNum (Num days) ->
        (0 < days < 2 ^ 47)%Z ->
        exists n,
          (2 * Z.abs (365 * n - 100 * days) < 365)%Z
          /\ get info "estimatedDomainAge" =
               Normal (VStr (decimal (n / 100)%Z ++ "."
                             ++ decimal (n mod 100 / 10)%Z
                             ++ decimal (n mod 10)%Z)%string)).
Proof.
  intros Hparse H Hc He Ha.
  destruct (whois_200_object B body ps info Hparse H)
    as [invalid [dataError [status [pending [redemption [created' [expires'
       [age' [-> [_ [_ [_ [_ [Hc' [He' Ha']]]]]]]]]]]]]]].
  rewrite Hc in Hc'. injection Hc' as <-.
  rewrite He in He'. injection He' as <-.
  rewrite Ha in Ha'. injection Ha' as <-.
  assert (Hage :
    get (VObj (normalized B ps invalid dataError status pending redemption
                 created expires age)) "estimatedDomainAge" =
      Normal (if truthy age then VStr (yearsToFixed2 B age)
              else VStr "no-data")).
  { unfold normalized. cbv zeta. cbn [get].
    destruct (truthy status); destruct (truthy expires); read_put; auto. }
  split; [|split; [|split; [|split; [exact Hage|]]]].
  1-3: unfold normalized; cbv zeta; cbn [get];
    destruct (truthy status); destruct (truthy expires); read_put; auto.
  intros days -> [Hpos _]. exists (hundredths days 365).
  split; [apply hundredths_nearest|].
  rewrite Hage. cbn [truthy].
  destruct (Z.eqb_spec days 0); [lia|]. cbn [negb].
  rewrite (yearsToFixed2_days B days Hpos). reflexivity.
Qed.

(** X12.  [isValidDomain] is [true] when the answer has no error message,
    and otherwise tells that the message does not contain
    ["Unable to retrieve whois record for"]; [missingData] tells that the
    data error of the whois record is ["MISSING_WHOIS_DATA"]. *)
Theorem whois_validity (B : builtins) (body : string)
    (ps : list (string * value)) (info dataError : value) :
  JSON_parse B body = Normal (VObj ps) ->
  whois_200 B body = Normal info ->
  chain (own ps "WhoisRecord") ["dataError"] = Normal dataError ->
  (if truthy (own ps "ErrorMessage")
   then exists msg invalid,
          get (own ps "ErrorMessage") "msg" = Normal msg
          /\ indexOf_found msg INVALID_DOMAIN_MESSAGE = Normal invalid
          /\ get info "isValidDomain" = Normal (VBool (negb invalid))
   else get info "isValidDomain" = Normal (VBool true))
  /\ get info "missingData" =
       Normal (VBool (is_string dataError MISSING_WHOIS_DATA_MESSAGE)).
Proof.
  intros Hparse H Hd.
  destruct (whois_200_object B body ps info Hparse H)
    as [invalid [dataError' [status [pending [redemption [created [expires
       [age [-> [Hinvalid [Hd' _]]]]]]]]]]].
  rewrite Hd in Hd'. injection Hd' as <-.
  assert (Hmissing : truthy dataError
                     && is_string dataError MISSING_WHOIS_DATA_MESSAGE
                     = is_string dataError MISSING_WHOIS_DATA_MESSAGE).
  { destruct (is_string dataError MISSING_WHOIS_DATA_MESSAGE) eqn:Hs;
      [|apply andb_false_r].
    apply is_string_true in Hs. subst dataError. reflexivity. }
  unfold normalized. cbv zeta. cbn [get]. rewrite Hmissing. split.
  - destruct (truthy (own ps "ErrorMessage")).
    + destruct Hinvalid as [msg [Hmsg Hfound]]. exists msg, invalid.
      destruct (truthy status); destruct (truthy expires); read_put; auto.
    + subst invalid.
      destruct (truthy status); destruct (truthy expires); read_put; auto.
  - destruct (truthy status); destruct (truthy expires); read_put; auto.
Qed.

Lemma chain_normal (v : value) (names : list string) :
  exists r, chain v names = Normal r.
Proof.
  revert v. induction names as [|n rest IH]; intros v; cbn [chain].
  - eexists. reflexivity.
  - destruct (truthy v) eqn:Hv; [|eexists; reflexivity].
    destruct (get_truthy v n Hv) as [x ->]. cbn [cbind]. apply IH.
Qed.

(** X13.  The callback of the whois request throws, instead of answering,
    when the body is not JSON, when it is the JSON text [null], when the
    answer has an error message whose [msg] is neither a string nor an
    array (a missing [msg] included), and when the status of the registry
    counts as true but is neither a string nor an array. *)
Theorem whois_callback_throws (B : builtins) (body : string) :
  (forall x, JSON_parse B body = Abrupt x -> whois_200 B body = Abrupt x)
  /\ (JSON_parse B body = Normal VNull -> whois_200 B body = Abrupt TypeError)
  /\ (forall ps msg x,
        JSON_parse B body = Normal (VObj ps) ->
        truthy (own ps "ErrorMessage") = true ->
        get (own ps "ErrorMessage") "msg" = Normal msg ->
        indexOf_found msg INVALID_DOMAIN_MESSAGE = Abrupt x ->
        whois_200 B body = Abrupt x)
  /\ (forall ps status x,
        JSON_parse B body = Normal (VObj ps) ->
        truthy (own ps "ErrorMessage") = false ->
        chain (own ps "WhoisRecord") ["registryData"; "status"]
          = Normal status ->
        truthy status = true ->
        indexOf_found status PENDING_DELETE = Abrupt x ->
        whois_200 B body = Abrupt x).
Proof.
  unfold whois_200. repeat split.
  - intros x ->. reflexivity.
  - intros ->. reflexivity.
  - intros ps msg x -> Hem Hmsg Hfound. cbn [cbind get].
    rewrite Hem, Hmsg. cbn [cbind]. rewrite Hfound. reflexivity.
  - intros ps status x -> Hem Hstatus Ht Hfound. cbn [cbind get set].
    rewrite Hem. cbn [cbind get set]. read_put.
    destruct (chain_normal (own ps "WhoisRecord") ["dataError"])
      as [dataError ->].
    cbn [cbind get set]. read_put. rewrite Hstatus. cbn [cbind].
    rewrite Ht. cbn [cbind set]. rewrite Hfound. reflexivity.
Qed.

(** X14.  When the whois request is answered with status 200 and the
    callback throws on the body, the whois fetch ends with the exception
    and the check does not complete. *)
Theorem whois_exception_ends_the_check (B : builtins) (w : world)
    (order : list nat) (options : Options.t) (info : Info.t) (q : query)
    (k : response -> prog value) (body : string) (x : exn) :
  snd (run w (authority_stage B options)) = Ok info ->
  getWhoisData B info options = Request q k ->
  http w q = Reply 200 body ->
  whois_200 B body = Abrupt x ->
  snd (run w (getWhoisData B info options)) = Uncaught x
  /\ forall data, snd (run w (check B order options)) <> Ok data.
Proof.
  intros Hstage Hreq Hhttp Hthrow.
  assert (Hw : snd (run w (getWhoisData B info options)) = Uncaught x).
  { destruct (whois_request B info options q k Hreq) as [_ [_ ->]].
    rewrite Hreq. cbn [run]. rewrite Hhttp. unfold whois_callback.
    cbn [Z.eqb Pos.eqb]. rewrite run_eval, Hthrow. reflexivity. }
  split; [exact Hw|]. intros data.
  rewrite check_stages, run_bind_outcome, Hstage, getOtherMetrics_outcome.
  destruct (settle order _) as [results|e|x'] eqn:Hsettle; try discriminate.
  destruct (group_ok B w order info options results Hsettle)
    as [r [s0 [p0 [g [_ [Hr _]]]]]].
  rewrite Hw in Hr. discriminate Hr.
Qed.

(** ** The Semrush fetch *)

(** X15.  [getSemrushData] tests its key before anything else: without a
    key it answers the record of [emptySemrush] and never reads
    [majestic].  [getWhoisData] tests its credential last: when
    [minTrustFlow] is set, the check is not skipped and reading the trust
    flow throws, it throws whether or not a credential is given, and so
    does [getSemrushData] with a key. *)
Theorem semrush_key_test_comes_first (B : builtins) (generalInfo : Info.t)
    (options : Options.t) :
  (truthy (Options.semrushKey options) = false ->
   getSemrushData B generalInfo options = Ret emptySemrush)
  /\ (forall x,
        truthy (Options.noCheckIfDNSResolve options)
        && Info.isDNSFound generalInfo = false ->
        truthy (Options.minTrustFlow options) = true ->
        get (Info.read (Info.majestic generalInfo)) "TrustFlow" = Abrupt x ->
        getWhoisData B generalInfo options = Throw x
        /\ (truthy (Options.semrushKey options) = true ->
            getSemrushData B generalInfo options = Throw x)).
Proof.
  unfold getSemrushData, getWhoisData, below_minTrustFlow. split.
  - intros ->. reflexivity.
  - intros x -> -> ->. cbn [cbind eval bind]. split; [reflexivity|].
    intros ->. reflexivity.
Qed.

Lemma semrush_ok (B : builtins) (w : world) (info : Info.t)
    (options : Options.t) (s : value) :
  snd (run w (getSemrushData B info options)) = Ok s ->
  (s = emptySemrush
   /\ fst (run w (getSemrushData B info options)) = [])
  \/ exists body,
       http w (semrush_query options) = Reply 200 body
       /\ s = convertSemrush body
       /\ fst (run w (getSemrushData B info options))
          = [EvRequest (semrush_query options)].
Proof.
  unfold getSemrushData.
  destruct (truthy (Options.semrushKey options));
    [|intros H; injection H as <-; left; split; reflexivity].
  destruct (truthy (Options.noCheckIfDNSResolve options)
            && Info.isDNSFound info);
    [intros H; injection H as <-; left; split; reflexivity|].
  destruct (below_minTrustFlow B info options) as [[|]|x];
    cbn [eval bind]; try discriminate;
    [intros H; injection H as <-; left; split; reflexivity|].
  cbn [run]. destruct (http w (semrush_query options)) as [e|code body];
    [discriminate|].
  destruct (Z.eqb code 200) eqn:Hcode; [|discriminate].
  apply Z.eqb_eq in Hcode. subst code.
  intros H. injection H as <-. right. exists body. auto.
Qed.

Lemma convertSemrush_fields (body : string) :
  exists fields,
    convertSemrush body = VObj fields /\ map fst fields = SEMRUSH_FIELDS.
Proof.
  unfold convertSemrush.
  destruct (Nat.ltb (List.length (split CRLF body)) 2);
    eexists; split; reflexivity.
Qed.

(** X16.  In the result of a completed check [semrush] is always set, to a
    record with exactly the seven fields [rank], [oganicKeywords],
    [organicTraffic], [organicCost], [adwordsKeywords], [adwordsTraffic]
    and [adwordsCost]: the record of [emptySemrush], or the parsed body of
    a Semrush answer with status 200. *)
Theorem semrush_of_completed_check (B : builtins) (w : world)
    (order : list nat) (options : Options.t) (data : Info.t) :
  snd (run w (check B order options)) = Ok data ->
  (exists fields,
     Info.semrush data = Some (VObj fields)
     /\ map fst fields = SEMRUSH_FIELDS)
  /\ (Info.semrush data = Some emptySemrush
      \/ exists body,
           http w (semrush_query options) = Reply 200 body
           /\ Info.semrush data = Some (convertSemrush body)).
Proof.
  intros H.
  destruct (check_ok B w order options data H)
    as [d [m [r [s0 [p0 [g [Hd [Hm [Hr [Hs [_ [_ Hmerge]]]]]]]]]]]].
  destruct (merge_keeps B _ options _ data Hmerge)
    as [_ [_ [_ [_ [_ [_ Hsem]]]]]].
  cbn [nth] in Hsem.
  destruct (semrush_ok B w _ options s0 Hs) as [[-> _]|[body [Hb [-> _]]]].
  - cbn [truthy emptySemrush] in Hsem. split; [|left; exact Hsem].
    rewrite Hsem. destruct (convertSemrush_fields "") as [fields [Hf Hn]].
    exists fields. split; [|exact Hn]. rewrite <- Hf. reflexivity.
  - destruct (convertSemrush_fields body) as [fields [Hf Hnames]].
    rewrite Hf in Hsem. cbn [truthy] in Hsem. split.
    + exists fields. auto.
    + right. exists body. rewrite Hf. auto.
Qed.

(** ** The threshold on the trust flow *)



Lemma completed_check_trace (B : builtins) (w : world) (order : list nat)
    (options : Options.t) (data : Info.t) :
  snd (run w (check B order options)) = Ok data ->
  exists d m,
    snd (run w (bind (getIp options) getPing)) = Ok d
    /\ snd (run w (getMajesticData B d options)) = Ok (Info.set_majestic d m)
    /\ fst (run w (check B order options)) =
         fst (run w (bind (getIp options) getPing))
         ++ fst (run w (getMajesticData B d options))
         ++ fst (run w (getWhoisData B (Info.set_majestic d m) options))
         ++ fst (run w (getSemrushData B (Info.set_majestic d m) options))
         ++ [EvSearch (search_query options true);
             EvSearch (search_query options false)].
Proof.
  intros H.
  destruct (check_ok B w order options data H)
    as [d [m [r [s0 [p0 [g [Hd [Hm [Hr [Hs _]]]]]]]]]].
  exists d, m. split; [exact Hd|]. split; [exact Hm|].
  destruct (check_trace B w order options) as [d' [Hd' ->]].
  rewrite Hd in Hd'. injection Hd' as <-. rewrite Hm.
  rewrite group_trace_started by (eapply not_throw_of_ok; eauto).
  reflexivity.
Qed.

(** X18.  When the trust flow that Majestic reports is a number below a
    numeric [minTrustFlow] other than 0, a completed check carries the
    record of [emptyWhoisData], the record of [emptySemrush] and
    [isAvailable = false], and the Majestic request is the only HTTP
    request it has made. *)
Theorem check_below_minTrustFlow (B : builtins) (w : world)
    (order : list nat) (options : Options.t) (data : Info.t) (m : value)
    (score threshold : Z) :
  snd (run w (check B order options)) = Ok data ->
  Info.majestic data = Some m ->
  get m "TrustFlow" = Normal (VNum (Num score)) ->
  Options.minTrustFlow options = VNum (Num threshold) ->
  threshold <> 0%Z ->
  (score < threshold)%Z ->
  Info.whois data = Some emptyWhoisData
  /\ Info.semrush data = Some emptySemrush
  /\ Info.isAvailable data = Some false
  /\ requests (fst (run w (check B order options))) =
       (if truthy (Options.majecticKey options)
           && negb (truthy (Options.noCheckIfDNSResolve options)
                    && resolves w (Options.domain options))
        then [majestic_query options] else []).
Proof.
  intros H Hmaj Hscore Hmin Hne Hlt.
  destruct (completed_check_trace B w order options data H)
    as [d [m' [Hd [Hm Htrace]]]].
  destruct (check_ok B w order options data H)
    as [d' [m'' [r [s0 [p0 [g [Hd' [Hm' [Hr [Hs [_ [_ Hmerge]]]]]]]]]]]].
  rewrite Hd in Hd'. injection Hd' as <-.
  rewrite Hm in Hm'. injection Hm' as Hm'.
  assert (m'' = m') as -> by (unfold Info.set_majestic in Hm'; congruence).
  destruct (merge_keeps B _ options _ data Hmerge)
    as [_ [_ [_ [_ [Hkeep _]]]]].
  rewrite Hmaj in Hkeep. cbn in Hkeep. injection Hkeep as ->.
  assert (Hbelow : below_minTrustFlow B (Info.set_majestic d m') options
                   = Normal true).
  { rewrite (below_minTrustFlow_numbers B _ options m' score threshold);
      auto.
    apply Z.ltb_lt in Hlt. rewrite Hlt. reflexivity. }
  assert (Hwhois : getWhoisData B (Info.set_majestic d m') options
                   = Ret emptyWhoisData).
  { unfold getWhoisData. rewrite Hbelow.
    destruct (_ && _); reflexivity. }
  assert (Hsemrush : getSemrushData B (Info.set_majestic d m') options
                     = Ret emptySemrush).
  { unfold getSemrushData. rewrite Hbelow.
    destruct (truthy (Options.semrushKey options)); [|reflexivity].
    destruct (_ && _); reflexivity. }
  rewrite Hwhois in Hr. cbn in Hr. injection Hr as <-.
  rewrite Hsemrush in Hs. cbn in Hs. injection Hs as <-.
  destruct (merge_sentinels B _ options p0 g data Hmerge)
    as [H1 [H2 [H3 _]]].
  split; [exact H1|]. split; [exact H2|]. split; [exact H3|].
  rewrite Htrace, Hwhois, Hsemrush. cbn [run fst app].
  rewrite !requests_app.
  destruct (resolution_stage_calls w options) as [-> _].
  destruct (resolution_stage w options) as [d' [Hd' [Hfound _]]].
  rewrite Hd in Hd'. injection Hd' as <-.
  rewrite majestic_trace, Hfound. cbn [app].
  destruct (_ && _); reflexivity.
Qed.

(** ** The answer of Majestic *)

(** X19.  On a Majestic answer with status 200, the first element of
    [DataTables.Results.Data] becomes [majestic] as it is, whatever
    follows it in the array; a body that is not JSON, or a JSON object
    without [DataTables], makes the check throw instead of ending with a
    result or an error. *)
Theorem majestic_answer (B : builtins) (w : world) (order : list nat)
    (options : Options.t) (body : string) :
  truthy (Options.majecticKey options) = true ->
  truthy (Options.noCheckIfDNSResolve options)
  && resolves w (Options.domain options) = false ->
  http w (majestic_query options) = Reply 200 body ->
  (forall answer tables results row others props data,
     JSON_parse B body = Normal answer ->
     get answer "DataTables" = Normal tables ->
     get tables "Results" = Normal results ->
     get results "Data" = Normal (VArr (row :: others) props) ->
     snd (run w (check B order options)) = Ok data ->
     Info.majestic data = Some row)
  /\ (forall x,
        JSON_parse B body = Abrupt x ->
        snd (run w (check B order options)) = Uncaught x)
  /\ (forall ps,
        JSON_parse B body = Normal (VObj ps) ->
        own ps "DataTables" = VUndef ->
        snd (run w (check B order options)) = Uncaught TypeError).
Proof.
  intros Hkey Hskip Hhttp.
  destruct (resolution_stage w options) as [d [Hd [Hfound _]]].
  assert (Hm : snd (run w (getMajesticData B d options)) =
               match
                 (let* info := JSON_parse B body in
                  let* tables := get info "DataTables" in
                  let* results := get tables "Results" in
                  let* data := get results "Data" in
                  let* row := first data in
                  Normal (Info.set_majestic d row))%completion
               with
               | Normal info => Ok info
               | Abrupt x => Uncaught x
               end).
  { unfold getMajesticData. rewrite Hkey, Hfound, Hskip. cbn [run].
    rewrite Hhttp. cbn [Z.eqb Pos.eqb]. rewrite run_eval. reflexivity. }
  assert (Hcheck : forall x,
            snd (run w (getMajesticData B d options)) = Uncaught x ->
            snd (run w (check B order options)) = Uncaught x).
  { intros x Hx. rewrite check_stages, run_bind_outcome.
    rewrite authority_stage_stages, run_bind_outcome, Hd, Hx.
    reflexivity. }
  split; [|split].
  - intros answer tables results row others props data Hp Ht Hr Hdata H.
    destruct (check_ok B w order options data H)
      as [d' [m [r [s0 [p0 [g [Hd' [Hm' [_ [_ [_ [_ Hmerge]]]]]]]]]]]].
    rewrite Hd in Hd'. injection Hd' as <-.
    rewrite Hm, Hp in Hm'. cbn [cbind] in Hm'.
    rewrite Ht in Hm'. cbn [cbind] in Hm'.
    rewrite Hr in Hm'. cbn [cbind] in Hm'.
    rewrite Hdata in Hm'. cbn [cbind first nth] in Hm'.
    injection Hm' as Hm'.
    destruct (merge_keeps B _ options _ data Hmerge)
      as [_ [_ [_ [_ [Hkeep _]]]]].
    rewrite Hkeep. unfold Info.set_majestic in *. cbn. congruence.
  - intros x Hp. apply Hcheck. rewrite Hm, Hp. reflexivity.
  - intros ps Hp Hdt. apply Hcheck. rewrite Hm, Hp. cbn [cbind get].
    rewrite Hdt. reflexivity.
Qed.

(** ** Rows without fields *)

Lemma split_without (sep s : string) :
  contains sep s = false -> split sep s = [s].
Proof.
  intros H. unfold split. rewrite split_from_without by exact H.
  reflexivity.
Qed.

(** X20.  When the second line of a Semrush response has no [;], as the
    empty line after a header that ends the response, [convertSemrush]
    answers a record whose seven fields are all [undefined], not the
    record of [emptySemrush]. *)
Theorem convertSemrush_row_without_fields (semrushResponse : string) :
  2 <= List.length (split CRLF semrushResponse) ->
  contains ";" (nth 1 (split CRLF semrushResponse) "") = false ->
  convertSemrush semrushResponse =
    VObj [ ("rank", VUndef);
           ("oganicKeywords", VUndef);
           ("organicTraffic", VUndef);
           ("organicCost", VUndef);
           ("adwordsKeywords", VUndef);
           ("adwordsTraffic", VUndef);
           ("adwordsCost", VUndef) ]
  /\ convertSemrush semrushResponse <> emptySemrush.
Proof.
  intros Hlen Hrow. unfold convertSemrush.
  destruct (Nat.ltb_spec (List.length (split CRLF semrushResponse)) 2);
    [lia|].
  rewrite (split_without ";" _ Hrow).
  split; [reflexivity|discriminate].
Qed.

(** ** The suffix of the domain *)


(** * The further properties on the scenarios *)

(** Ends a goal [exists data, o = Ok data /\ P data] on a check that
    completes, with [P] the conclusion of a theorem on completed checks. *)
Ltac completed_check use :=
  lazymatch goal with
  | |- exists data, ?o = Ok data /\ _ =>
      let H := fresh "H" in
      destruct o as [data|e|x] eqn:H;
      [|vm_compute in H; discriminate H|vm_compute in H; discriminate H];
      exists data; split; [reflexivity|]; use H
  end.

Lemma completed_check_record_witness :
  exists data,
    snd (run (offline true) (check sample_runtime [] no_credentials))
      = Ok data
    /\ (Info.domain data = "example-test123.com"
        /\ Info.isDNSFound data = true
        /\ Info.ip data = Some "93.184.216.34"
        /\ Info.isAlive data = Some true
        /\ (exists m, Info.majestic data = Some m)
        /\ (exists tld,
              getTld sample_runtime "example-test123.com" = Normal tld
              /\ Info.tld data = Some tld)).
Proof.
  completed_check
    ltac:(fun H => exact (completed_check_record _ _ _ _ _ H)).
Defined.

Lemma completed_check_calls_witness :
  exists data,
    snd (run (offline true)
           (check sample_runtime [] (all_credentials (VBool true) VUndef)))
      = Ok data
    /\ searches
         (fst (run (offline true)
                 (check sample_runtime []
                    (all_credentials (VBool true) VUndef))))
       = [ search_query (all_credentials (VBool true) VUndef) true;
           search_query (all_credentials (VBool true) VUndef) false ].
Proof.
  completed_check
    ltac:(fun H => exact (proj1 (completed_check_calls _ _ _ _ _ H))).
Defined.

Lemma skipped_check_for_resolved_domain_witness :
  requests
    (fst (run (offline true)
            (check sample_runtime [] (all_credentials (VBool true) VUndef))))
  = []
  /\ (exists data,
        snd (run (offline true)
               (check sample_runtime []
                  (all_credentials (VBool true) VUndef)))
          = Ok data)
  /\ snd (run (offline true)
            (check answers_runtime [] (port_request VUndef (VBool true))))
     = Uncaught TypeError.
Proof.
  destruct (skipped_check_for_resolved_domain sample_runtime (offline true)
              [] (all_credentials (VBool true) VUndef) eq_refl eq_refl)
    as [Hreq [_ Hdone]].
  split; [exact Hreq|]. split.
  - apply (Hdone (VNum (Num 10)) (VNum (Num 15))); reflexivity.
  - destruct (skipped_check_for_resolved_domain answers_runtime
                (offline true) [] (port_request VUndef (VBool true))
                eq_refl eq_refl)
      as [_ [_ Hthrown]].
    apply (Hthrown (VNum (Num 15)) (VNum (Num 15))); reflexivity.
Defined.


Lemma majestic_failure_stops_the_calls_witness :
  searches
    (fst (run (offline false)
            (check sample_runtime [] (all_credentials VUndef VUndef))))
  = [].
Proof.
  apply (majestic_failure_stops_the_calls sample_runtime (offline false) []
           (all_credentials VUndef VUndef) eq_refl eq_refl eq_refl).
Defined.

Lemma search_failure_is_fatal_witness :
  match
    snd (run (world_with false (NetError "down") (NetError "down")
                (NetError "down") (SearchError "captcha")
                (Count (VNum (Num 15))))
           (check sample_runtime [] no_credentials))
  with
  | Ok _ => False
  | Err _ => True
  | Uncaught x =>
      snd (run (world_with false (NetError "down") (NetError "down")
                  (NetError "down") (SearchError "captcha")
                  (Count (VNum (Num 15))))
             (getWhoisData sample_runtime
                (Info.set_majestic unresolved_info NO_MAJESTIC_KEY)
                no_credentials))
        = Uncaught x
  end.
Proof.
  exact (search_failure_is_fatal sample_runtime
           (world_with false (NetError "down") (NetError "down")
              (NetError "down") (SearchError "captcha")
              (Count (VNum (Num 15))))
           [] no_credentials
           (Info.set_majestic unresolved_info NO_MAJESTIC_KEY)
           false true "captcha" eq_refl eq_refl eq_refl).
Defined.

(** Ends a goal [exists info, whois_200 B body = Normal info /\ P info]. *)
Ltac normalized_answer use :=
  lazymatch goal with
  | |- exists info, ?c = Normal info /\ _ =>
      let H := fresh "H" in
      destruct c as [info|x] eqn:H; [|vm_compute in H; discriminate H];
      exists info; split; [reflexivity|]; use H
  end.

Lemma whois_derived_fields_set_witness :
  exists info,
    whois_200 answers_runtime WHOIS_RECORD = Normal info
    /\ exists ps',
         info = VObj ps'
         /\ (exists b, own ps' "isValidDomain" = VBool b)
         /\ (exists b, own ps' "missingData" = VBool b)
         /\ (own ps' "isPendingDelete" = VStr "no-data"
             \/ exists b, own ps' "isPendingDelete" = VBool b)
         /\ (own ps' "isRedemptionPeriod" = VStr "no-data"
             \/ exists b, own ps' "isRedemptionPeriod" = VBool b)
         /\ truthy (own ps' "createdDate") = true
         /\ truthy (own ps' "expiresDate") = true
         /\ (exists text, own ps' "expiredWaitingTime" = VStr text)
         /\ (exists text, own ps' "estimatedDomainAge" = VStr text).
Proof.
  normalized_answer
    ltac:(fun H =>
            exact (whois_derived_fields_set answers_runtime WHOIS_RECORD
                     WHOIS_RECORD_PROPERTIES _ eq_refl H)).
Defined.

Lemma whois_answer_kept_witness :
  exists info,
    whois_200 answers_runtime WHOIS_RECORD = Normal info
    /\ get info "server" = Normal (VStr "whois").
Proof.
  normalized_answer
    ltac:(fun H =>
            apply (whois_answer_kept answers_runtime WHOIS_RECORD
                     WHOIS_RECORD_PROPERTIES _ "server" eq_refl H)).
  cbn [WHOIS_DERIVED In]. intros Hin.
  repeat (destruct Hin as [Hin|Hin]; [discriminate Hin|]). exact Hin.
Defined.

Lemma whois_status_flags_witness :
  exists info,
    whois_200 answers_runtime WHOIS_RECORD = Normal info
    /\ exists pending redemption,
         indexOf_found (VStr "pendingDelete") PENDING_DELETE = Normal pending
         /\ indexOf_found (VStr "pendingDelete") REDEMPTION_PERIOD
            = Normal redemption
         /\ get info "status" = Normal (VStr "pendingDelete")
         /\ get info "isPendingDelete" = Normal (VBool pending)
         /\ get info "isRedemptionPeriod" = Normal (VBool redemption).
Proof.
  normalized_answer
    ltac:(fun H =>
            exact (whois_status_flags answers_runtime WHOIS_RECORD
                     WHOIS_RECORD_PROPERTIES _ (VStr "pendingDelete")
                     eq_refl H eq_refl)).
Defined.

Lemma whois_dates_witness :
  exists info,
    whois_200 answers_runtime WHOIS_RECORD = Normal info
    /\ (get info "createdDate" = Normal (VStr "2016-01-01")
        /\ get info "expiresDate" = Normal (VStr "2030-01-01")
        /\ get info "expiredWaitingTime" = Normal (VStr "in 3 years")
        /\ get info "estimatedDomainAge" = Normal (VStr "10.00")
        /\ exists n,
             (2 * Z.abs (365 * n - 100 * 3650) < 365)%Z
             /\ get info "estimatedDomainAge" =
                  Normal (VStr (decimal (n / 100)%Z ++ "."
                                ++ decimal (n mod 100 / 10)%Z
                                ++ decimal (n mod 10)%Z)%string)).
Proof.
  normalized_answer
    ltac:(fun H =>
            destruct (whois_dates answers_runtime WHOIS_RECORD
                        WHOIS_RECORD_PROPERTIES _ (VStr "2016-01-01")
                        (VStr "2030-01-01") (VNum (Num 3650))
                        eq_refl H eq_refl eq_refl eq_refl)
              as [Hc [He [Hw [Ha Hn]]]];
            repeat split; [exact Hc | exact He | exact Hw | exact Ha |];
            apply (Hn 3650%Z eq_refl); lia).
Defined.

Lemma whois_validity_witness :
  exists info,
    whois_200 answers_runtime WHOIS_RECORD = Normal info
    /\ (get info "isValidDomain" = Normal (VBool true)
        /\ get info "missingData" = Normal (VBool false)).
Proof.
  normalized_answer
    ltac:(fun H =>
            exact (whois_validity answers_runtime WHOIS_RECORD
                     WHOIS_RECORD_PROPERTIES _ VUndef eq_refl H eq_refl)).
Defined.

Lemma whois_callback_throws_witness :
  whois_200 answers_runtime "<html>" = Abrupt SyntaxError
  /\ whois_200 answers_runtime WHOIS_ERROR_NO_MSG = Abrupt TypeError.
Proof.
  split.
  - apply (proj1 (whois_callback_throws answers_runtime "<html>")).
    reflexivity.
  - apply (proj1 (proj2 (proj2 (whois_callback_throws answers_runtime
                                  WHOIS_ERROR_NO_MSG)))
             [("ErrorMessage", VObj [("errorCode", VStr "WHOIS_01")])]
             VUndef);
      reflexivity.
Defined.

Lemma whois_exception_ends_the_check_witness :
  snd (run (world_with false (NetError "down")
              (Reply 200 WHOIS_ERROR_NO_MSG) (NetError "down")
              (Count (VNum (Num 10))) (Count (VNum (Num 15))))
         (getWhoisData answers_runtime
            (Info.set_majestic unresolved_info NO_MAJESTIC_KEY)
            (request_for VUndef whois_credential VUndef VUndef VUndef)))
    = Uncaught TypeError
  /\ forall data,
       snd (run (world_with false (NetError "down")
                   (Reply 200 WHOIS_ERROR_NO_MSG) (NetError "down")
                   (Count (VNum (Num 10))) (Count (VNum (Num 15))))
              (check answers_runtime []
                 (request_for VUndef whois_credential VUndef VUndef VUndef)))
       <> Ok data.
Proof.
  exact (whois_exception_ends_the_check answers_runtime
           (world_with false (NetError "down")
              (Reply 200 WHOIS_ERROR_NO_MSG) (NetError "down")
              (Count (VNum (Num 10))) (Count (VNum (Num 15))))
           []
           (request_for VUndef whois_credential VUndef VUndef VUndef)
           (Info.set_majestic unresolved_info NO_MAJESTIC_KEY)
           {| url := URL_WHOIS;
              qs := [ ("username", VStr "user");
                      ("password", VStr "secret");
                      ("domainName", VStr "example-test123.com");
                      ("outputFormat", VStr "JSON");
                      ("getMode", VStr "DNS_AND_WHOIS") ] |}
           (whois_callback answers_runtime)
           WHOIS_ERROR_NO_MSG TypeError
           eq_refl eq_refl eq_refl eq_refl).
Defined.

Lemma semrush_key_test_comes_first_witness :
  getSemrushData sample_runtime unresolved_info
    (request_for VUndef VUndef VUndef VUndef (VNum (Num 10)))
  = Ret emptySemrush
  /\ getWhoisData sample_runtime unresolved_info
       (request_for VUndef VUndef VUndef VUndef (VNum (Num 10)))
     = Throw TypeError
  /\ getSemrushData sample_runtime unresolved_info
       (request_for VUndef VUndef (VStr "key") VUndef (VNum (Num 10)))
     = Throw TypeError.
Proof.
  split; [|split].
  - apply (proj1 (semrush_key_test_comes_first sample_runtime
                    unresolved_info
                    (request_for VUndef VUndef VUndef VUndef
                       (VNum (Num 10))))).
    reflexivity.
  - apply (proj2 (semrush_key_test_comes_first sample_runtime
                    unresolved_info
                    (request_for VUndef VUndef VUndef VUndef
                       (VNum (Num 10))))
             TypeError); reflexivity.
  - apply (proj2 (semrush_key_test_comes_first sample_runtime
                    unresolved_info
                    (request_for VUndef VUndef (VStr "key") VUndef
                       (VNum (Num 10))))
             TypeError); reflexivity.
Defined.

Lemma semrush_of_completed_check_witness :
  exists data,
    snd (run (world_with false (NetError "down") (NetError "down")
                (Reply 200 SEMRUSH_ONE_ROW) (Count (VNum (Num 10)))
                (Count (VNum (Num 15))))
           (check sample_runtime []
              (request_for VUndef VUndef (VStr "key") VUndef VUndef)))
      = Ok data
    /\ exists fields,
         Info.semrush data = Some (VObj fields)
         /\ map fst fields = SEMRUSH_FIELDS.
Proof.
  completed_check
    ltac:(fun H => exact (proj1 (semrush_of_completed_check _ _ _ _ _ H))).
Defined.


Lemma check_below_minTrustFlow_witness :
  exists data,
    snd (run (world_with false (Reply 200 MAJESTIC_TWO_ROWS)
                (NetError "down") (NetError "down") (Count (VNum (Num 10)))
                (Count (VNum (Num 15))))
           (check answers_runtime [] (all_credentials VUndef (VNum (Num 10)))))
      = Ok data
    /\ (Info.whois data = Some emptyWhoisData
        /\ Info.semrush data = Some emptySemrush
        /\ Info.isAvailable data = Some false
        /\ requests
             (fst (run (world_with false (Reply 200 MAJESTIC_TWO_ROWS)
                          (NetError "down") (NetError "down")
                          (Count (VNum (Num 10))) (Count (VNum (Num 15))))
                     (check answers_runtime []
                        (all_credentials VUndef (VNum (Num 10))))))
           = [majestic_query (all_credentials VUndef (VNum (Num 10)))]).
Proof.
  completed_check
    ltac:(fun H =>
            pose proof (check_below_minTrustFlow _ _ _ _ _
                          (VObj [("TrustFlow", VNum (Num 3))]) 3%Z 10%Z H)
              as T).
  vm_compute in H. injection H as <-.
  apply T; [reflexivity | reflexivity | reflexivity | discriminate | lia].
Defined.

Lemma majestic_answer_witness :
  exists data,
    snd (run (world_with false (Reply 200 MAJESTIC_TWO_ROWS)
                (NetError "down") (NetError "down") (Count (VNum (Num 10)))
                (Count (VNum (Num 15))))
           (check answers_runtime []
              (request_for (VStr "key") VUndef VUndef VUndef VUndef)))
      = Ok data
    /\ Info.majestic data = Some (VObj [("TrustFlow", VNum (Num 3))]).
Proof.
  completed_check
    ltac:(fun H =>
            apply (proj1 (majestic_answer answers_runtime
                     (world_with false (Reply 200 MAJESTIC_TWO_ROWS)
                        (NetError "down") (NetError "down")
                        (Count (VNum (Num 10))) (Count (VNum (Num 15))))
                     []
                     (request_for (VStr "key") VUndef VUndef VUndef VUndef)
                     MAJESTIC_TWO_ROWS
                     eq_refl eq_refl eq_refl)
                   _ _ _ _ _ _ _ eq_refl eq_refl eq_refl eq_refl H)).
Defined.

Lemma convertSemrush_row_without_fields_witness :
  convertSemrush ("Domain;Rank" ++ CRLF) =
    VObj [ ("rank", VUndef);
           ("oganicKeywords", VUndef);
           ("organicTraffic", VUndef);
           ("organicCost", VUndef);
           ("adwordsKeywords", VUndef);
           ("adwordsTraffic", VUndef);
           ("adwordsCost", VUndef) ]
  /\ convertSemrush ("Domain;Rank" ++ CRLF) <> emptySemrush.
Proof.
  apply (convertSemrush_row_without_fields ("Domain;Rank" ++ CRLF));
    [vm_compute; lia | reflexivity].
Defined.

